(** * DocuQuiz: the quality-gated MCQ generation pipeline

    A shallow embedding of [src/mcq_models.py], [src/agents/mcq_agents.py]
    and [src/agents/mcq_orchestrator.py], and the properties of the
    question model, the three stages and the orchestrator.

    Conventions of the embedding:
    - a Python [str] is a [string] whose characters are code points below
      256; [len] is [String.length];
    - a Python [float] is a primitive binary64 [float], compared with
      [PrimFloat.ltb] and [PrimFloat.leb] as Python's [<] and [>=] do;
    - dataclass fields have the types of their annotations, and a decoded
      JSON object is given by the keys the code reads, each absent or
      holding a value of the type the prompt asks for;
    - the text-generation service, with the JSON decoding of its answer, and
      the retrieval service are parameters that act on an abstract state of
      the outside world; a call of the retrieval service returns the
      fragments or raises; [print] appends a line to the console output. *)

From Stdlib Require Import Floats ZArith Ascii String.
From stdpp Require Import gmap strings list.

Local Open Scope string_scope.
Local Open Scope list_scope.

(** ** Python strings *)

(** [str.isspace] on the code points below 256. *)
Definition is_space (c : ascii) : bool :=
  let n := nat_of_ascii c in
  ((9 <=? n)%nat && (n <=? 13)%nat) || ((28 <=? n)%nat && (n <=? 32)%nat)
  || (n =? 133)%nat || (n =? 160)%nat.

Fixpoint lstrip (s : string) : string :=
  match s with
  | String c s' => if is_space c then lstrip s' else s
  | EmptyString => EmptyString
  end.

Definition rstrip (s : string) : string := String.rev (lstrip (String.rev s)).

(** [s.strip()] *)
Definition strip (s : string) : string := rstrip (lstrip s).

(** Truth value of a [str]: the empty string is false. *)
Definition truthy (s : string) : bool :=
  match s with EmptyString => false | _ => true end.

(** [s[:n]] *)
Fixpoint str_take (n : nat) (s : string) : string :=
  match n, s with
  | S n', String c s' => String c (str_take n' s')
  | _, _ => EmptyString
  end.

(** [float(n)] for a length [n]; exact below 2^53. *)
Definition float_of_nat (n : nat) : float :=
  PrimFloat.of_uint63 (Uint63.of_Z (Z.of_nat n)).

(** ** The question model ([mcq_models.py]) *)

Inductive DifficultyLevel := EASY | MEDIUM | HARD.

(** [DifficultyLevel(value)]: lookup by value, [ValueError] otherwise. *)
Definition DifficultyLevel_of_value (s : string) : option DifficultyLevel :=
  if String.eqb s "easy" then Some EASY
  else if String.eqb s "medium" then Some MEDIUM
  else if String.eqb s "hard" then Some HARD
  else None.

Inductive ValidationStatus := VALID | INVALID | NEEDS_REVISION.

Record MCQOption := mkMCQOption {
  label : string;
  text : string;
  is_correct : bool
}.

Record MCQ := mkMCQ {
  question : string;
  options : list MCQOption;
  correct_answer : string;
  explanation : string;
  difficulty : DifficultyLevel;
  chunk_id : string;
  source_filename : string;
  context_snippet : string;
  metadata : gmap string Z
}.

Record CritiqueResult := mkCritiqueResult {
  c_mcq_index : nat;
  clarity_score : float;
  correctness_score : float;
  grounding_score : float;
  difficulty_assessment : DifficultyLevel;
  issues : list string;
  suggestions : list string;
  overall_score : float
}.

(** Construction of a [CritiqueResult]: [__post_init__] overwrites
    [overall_score] with the mean of the three scores. *)
Definition CritiqueResult_init (mcq_index : nat)
    (clarity correctness grounding : float) (assessment : DifficultyLevel)
    (issues suggestions : list string) : CritiqueResult :=
  {| c_mcq_index := mcq_index;
     clarity_score := clarity;
     correctness_score := correctness;
     grounding_score := grounding;
     difficulty_assessment := assessment;
     issues := issues;
     suggestions := suggestions;
     overall_score := ((clarity + correctness + grounding) / 3)%float |}.

(** The messages appended to [validation_errors]; a constructor carries the
    values its f-string interpolates. *)
Inductive ValidationError :=
  | QuestionTooShort                       (* "Question is too short or empty" *)
  | WrongOptionCount (found : nat)         (* "Must have exactly 4 options, found {n}" *)
  | WrongCorrectCount (found : nat)        (* "Must have exactly 1 correct answer, found {n}" *)
  | ExplanationTooShort                    (* "Explanation is too short or empty" *)
  | InvalidOptionLabels (actual : gset string) (* "Invalid option labels: {set}" *)
  | MissingChunkId                         (* "Missing chunk_id" *)
  | MissingSourceFilename                  (* "Missing source_filename" *)
  | MissingDifficulty                      (* "Missing difficulty level" *)
  | LowGroundingScore (score : float)      (* "Low grounding score: {score}/10" *)
  | PotentialHallucination.                (* "Potential hallucination detected" *)

Record ValidationResult := mkValidationResult {
  v_mcq_index : nat;
  status : ValidationStatus;
  is_context_grounded : bool;
  is_properly_formatted : bool;
  has_required_metadata : bool;
  has_hallucination : bool;
  validation_errors : list ValidationError
}.

Definition status_eqb (a b : ValidationStatus) : bool :=
  match a, b with
  | VALID, VALID | INVALID, INVALID | NEEDS_REVISION, NEEDS_REVISION => true
  | _, _ => false
  end.

Definition is_valid (v : ValidationResult) : bool :=
  status_eqb (status v) VALID &&
  is_context_grounded v &&
  is_properly_formatted v &&
  has_required_metadata v &&
  negb (has_hallucination v).

Record MCQGenerationResult := mkMCQGenerationResult {
  r_query : string;
  mcqs : list MCQ;
  critiques : list CritiqueResult;
  validations : list ValidationResult;
  valid_mcqs : list MCQ;
  invalid_mcqs : list MCQ
}.

(** The loop of [MCQGenerationResult.__post_init__], from index [i] on:
    [validations !! i] is [self.validations[i] if i < len(self.validations)
    else None]. *)
Fixpoint partition_mcqs (validations : list ValidationResult) (i : nat)
    (mcqs : list MCQ) (valid invalid : list MCQ) : list MCQ * list MCQ :=
  match mcqs with
  | [] => (valid, invalid)
  | mcq :: rest =>
      let validation := validations !! i in
      if match validation with Some v => is_valid v | None => false end
      then partition_mcqs validations (S i) rest (valid ++ [mcq]) invalid
      else partition_mcqs validations (S i) rest valid (invalid ++ [mcq])
  end.

(** [MCQGenerationResult(query=.., mcqs=.., critiques=.., validations=..)]:
    the two derived lists start from their default, the empty list. *)
Definition MCQGenerationResult_init (query : string) (mcqs : list MCQ)
    (critiques : list CritiqueResult) (validations : list ValidationResult)
    : MCQGenerationResult :=
  let '(valid, invalid) := partition_mcqs validations 0 mcqs [] [] in
  {| r_query := query; mcqs := mcqs; critiques := critiques;
     validations := validations; valid_mcqs := valid; invalid_mcqs := invalid |}.

(** ** Exceptions, the outside world and the console *)

Inductive exn :=
  | KeyError (key : string)
  | IndexError
  | ValueError
  | ZeroDivisionError
  | ServiceError        (* the text-generation service failed *)
  | JSONDecodeError.    (* its answer is not in the requested JSON grammar *)

Inductive result (A : Type) :=
  | Ok (a : A)
  | Raise (e : exn).
Arguments Ok {A} a.
Arguments Raise {A} e.

Definition rbind {A B} (r : result A) (k : A → result B) : result B :=
  match r with
  | Ok a => k a
  | Raise e => Raise e
  end.

Notation "x <~ c1 ;; c2" := (rbind c1 (λ x, c2))
  (at level 100, c1 at next level, right associativity).

(** [d[key]] on a decoded JSON object: a key is absent ([None]) or present. *)
Definition getitem {A} (key : string) (v : option A) : result A :=
  match v with
  | Some a => Ok a
  | None => Raise (KeyError key)
  end.

(** [l[i]] for a Python [int]: negative indices count from the end. *)
Definition list_getitem {A} (l : list A) (i : Z) : result A :=
  let n := Z.of_nat (length l) in
  let j := if (i <? 0)%Z then (i + n)%Z else i in
  if (j <? 0)%Z then Raise IndexError
  else match l !! Z.to_nat j with
       | Some x => Ok x
       | None => Raise IndexError
       end.

(** [DifficultyLevel(value)] *)
Definition DifficultyLevel_call (value : string) : result DifficultyLevel :=
  match DifficultyLevel_of_value value with
  | Some d => Ok d
  | None => Raise ValueError
  end.

(** [a / b] on lengths: the quotient as a float, [ZeroDivisionError] when
    [b] is 0. *)
Definition truediv (a b : nat) : result float :=
  if (b =? 0)%nat then Raise ZeroDivisionError
  else Ok (float_of_nat a / float_of_nat b)%float.

(** A retrieved context fragment, as [retrieve_context] builds it; [ch_chunk_id]
    is the [str()] of the stored identifier. *)
Record Chunk := mkChunk {
  ch_text : string;
  ch_score : float;
  ch_chunk_id : string;
  ch_source : string
}.

(** One option of a decoded generation item. *)
Record OptionData := mkOptionData {
  od_label : option string;
  od_text : option string
}.

(** One item of the decoded generation answer: each key the code reads is
    absent or holds a value of the type the prompt asks for. *)
Record McqData := mkMcqData {
  md_question : option string;
  md_options : option (list OptionData);
  md_correct_answer : option string;
  md_explanation : option string;
  md_difficulty : option string;
  md_chunk_index : option Z
}.

(** The decoded critique answer; a score that is present is given as the
    value of [float(..)] on it. *)
Record CritiqueData := mkCritiqueData {
  cd_clarity_score : option float;
  cd_correctness_score : option float;
  cd_grounding_score : option float;
  cd_difficulty_assessment : option string;
  cd_issues : option (list string);
  cd_suggestions : option (list string)
}.

(** What a call of the text-generation service followed by [json.loads]
    comes to: the service fails, its answer does not parse, or it parses into
    a value [a]. *)
Inductive reply (A : Type) :=
  | ServiceFailed
  | Malformed
  | Parsed (a : A).
Arguments ServiceFailed {A}.
Arguments Malformed {A}.
Arguments Parsed {A} a.

(** The lines printed to the console, one constructor per [print] that shows
    data (rules and titles are left out). *)
Inductive Line :=
  | LRetrieving (query : string)
  | LRetrieved (n : nat)
  | LNoContext
  | LGenerating (num_mcqs : Z)
  | LGenerated (n : nat)
  | LGenerationFailed
  | LCritiquing (n : nat)
  | LCritiqued (n : nat)
  | LCritiqueScore (i : nat) (overall : float)
  | LValidating (n : nat)
  | LValidated (valid_count total : nat)
  | LSummaryQuery (query : string)
  | LSummaryTotal (n : nat)
  | LSummaryValid (n : nat)
  | LSummaryInvalid (n : nat)
  | LSummaryAverage (avg : float)
  | LErrorGenerating (e : exn)
  | LErrorCritiquing (i : nat) (e : exn)
  | LBatchStart (n : nat)
  | LBatchQuery (i n : nat)
  | LBatchQueries (n : nat)
  | LBatchGenerated (n : nat)
  | LBatchValid (n : nat)
  | LSuccessRate (percent : float).

Record State (World : Type) := mkState {
  world : World;
  console : list Line
}.
Arguments mkState {World} world console.
Arguments world {World} s.
Arguments console {World} s.

(** The external collaborators: each call reads and changes the world.
    [retrieval_service] is the call
    [retrieval_agent.retrieve_context(query, top_k)['chunks']]: it returns the
    fragments, or raises what the retrieval chain raises ([ValueError] when
    the index is not initialised, the error of a remote call). *)
Record Services (World : Type) := mkServices {
  retrieval_service : string → Z → World → result (list Chunk) * World;
  generation_service :
    list Chunk → Z → option string → World → reply (list McqData) * World;
  critic_service : MCQ → Chunk → World → reply CritiqueData * World
}.
Arguments retrieval_service {World} s.
Arguments generation_service {World} s.
Arguments critic_service {World} s.

(** Computations that change the state and may raise. *)
Definition M (World A : Type) : Type := State World → result A * State World.

Definition ret {World A} (a : A) : M World A := λ st, (Ok a, st).

Definition bind {World A B} (m : M World A) (k : A → M World B) : M World B :=
  λ st, match m st with
        | (Ok a, st') => k a st'
        | (Raise e, st') => (Raise e, st')
        end.

Notation "x <- c1 ;; c2" := (bind c1 (λ x, c2))
  (at level 100, c1 at next level, right associativity).
Notation "c1 ;; c2" := (bind c1 (λ _, c2))
  (at level 100, right associativity).

Definition lift {World A} (r : result A) : M World A := λ st, (r, st).

(** [try: body except Exception as e: handler(e)] *)
Definition try_except {World A} (body : M World A) (handler : exn → M World A)
    : M World A :=
  λ st, match body st with
        | (Ok a, st') => (Ok a, st')
        | (Raise e, st') => handler e st'
        end.

Definition print {World} (l : Line) : M World unit :=
  λ st, (Ok tt, mkState (world st) (console st ++ [l])).

(** A service call followed by the decoding of its answer. *)
Definition call {World A} (service : World → reply A * World) : M World A :=
  λ st, let '(r, w) := service (world st) in
        let st' := mkState w (console st) in
        match r with
        | ServiceFailed => (Raise ServiceError, st')
        | Malformed => (Raise JSONDecodeError, st')
        | Parsed a => (Ok a, st')
        end.

(** ** The validation stage ([MCQValidationAgent]) *)

Module MCQValidationAgent.

Definition expected_labels : gset string := {[ "A"; "B"; "C"; "D" ]}.

(** [{opt.label for opt in mcq.options}] *)
Definition actual_labels (mcq : MCQ) : gset string :=
  list_to_set (label <$> options mcq).

(** [_check_format(mcq, errors)]: returns [is_valid] and the list [errors]
    after the appends. *)
Definition _check_format (mcq : MCQ) (errors : list ValidationError)
    : bool * list ValidationError :=
  let is_valid := true in
  let '(is_valid, errors) :=
    if negb (truthy (question mcq))
       || (String.length (strip (question mcq)) <? 10)%nat
    then (false, errors ++ [QuestionTooShort]) else (is_valid, errors) in
  let '(is_valid, errors) :=
    if negb (length (options mcq) =? 4)%nat
    then (false, errors ++ [WrongOptionCount (length (options mcq))])
    else (is_valid, errors) in
  let correct_options := filter (λ opt, is_correct opt = true) (options mcq) in
  let '(is_valid, errors) :=
    if negb (length correct_options =? 1)%nat
    then (false, errors ++ [WrongCorrectCount (length correct_options)])
    else (is_valid, errors) in
  let '(is_valid, errors) :=
    if negb (truthy (explanation mcq))
       || (String.length (strip (explanation mcq)) <? 10)%nat
    then (false, errors ++ [ExplanationTooShort]) else (is_valid, errors) in
  let '(is_valid, errors) :=
    if negb (bool_decide (actual_labels mcq = expected_labels))
    then (false, errors ++ [InvalidOptionLabels (actual_labels mcq)])
    else (is_valid, errors) in
  (is_valid, errors).

(** Truth value of an enumeration member: always true. *)
Definition truthy_difficulty (d : DifficultyLevel) : bool := true.

Definition _check_metadata (mcq : MCQ) (errors : list ValidationError)
    : bool * list ValidationError :=
  let is_valid := true in
  let '(is_valid, errors) :=
    if negb (truthy (chunk_id mcq))
    then (false, errors ++ [MissingChunkId]) else (is_valid, errors) in
  let '(is_valid, errors) :=
    if negb (truthy (source_filename mcq))
    then (false, errors ++ [MissingSourceFilename]) else (is_valid, errors) in
  let '(is_valid, errors) :=
    if negb (truthy_difficulty (difficulty mcq))
    then (false, errors ++ [MissingDifficulty]) else (is_valid, errors) in
  (is_valid, errors).

(** The grounding check: [if critique and critique.grounding_score < 6.0]. *)
Definition check_grounding (critique : option CritiqueResult)
    (errors : list ValidationError) : bool * list ValidationError :=
  match critique with
  | Some c =>
      if PrimFloat.ltb (grounding_score c) 6
      then (false, errors ++ [LowGroundingScore (grounding_score c)])
      else (true, errors)
  | None => (true, errors)
  end.

(** The hallucination check: [if critique and critique.grounding_score < 5.0]. *)
Definition check_hallucination (critique : option CritiqueResult)
    (errors : list ValidationError) : bool * list ValidationError :=
  match critique with
  | Some c =>
      if PrimFloat.ltb (grounding_score c) 5
      then (true, errors ++ [PotentialHallucination])
      else (false, errors)
  | None => (false, errors)
  end.

(** The status, from the accumulated errors and the critique. *)
Definition determine_status (critique : option CritiqueResult)
    (errors : list ValidationError) : ValidationStatus :=
  match errors with
  | [] => VALID
  | _ :: _ =>
      match critique with
      | Some c => if PrimFloat.leb 7 (overall_score c) then NEEDS_REVISION else INVALID
      | None => INVALID
      end
  end.

(** The body of the loop of [validate_mcqs] for [mcqs[i]]. *)
Definition validate_mcq (critiques : list CritiqueResult) (i : nat) (mcq : MCQ)
    : ValidationResult :=
  let critique := critiques !! i in
  let errors := [] in
  let '(is_properly_formatted, errors) := _check_format mcq errors in
  let '(has_required_metadata, errors) := _check_metadata mcq errors in
  let '(is_context_grounded, errors) := check_grounding critique errors in
  let '(has_hallucination, errors) := check_hallucination critique errors in
  let status := determine_status critique errors in
  {| v_mcq_index := i;
     status := status;
     is_context_grounded := is_context_grounded;
     is_properly_formatted := is_properly_formatted;
     has_required_metadata := has_required_metadata;
     has_hallucination := has_hallucination;
     validation_errors := errors |}.

(** [validate_mcqs(mcqs, critiques, context_chunks)]: one result per MCQ, in
    order; the context chunks are not read. *)
Definition validate_mcqs (mcqs : list MCQ)
    (critiques : list CritiqueResult) (context_chunks : list Chunk)
    : list ValidationResult :=
  imap (validate_mcq critiques) mcqs.

End MCQValidationAgent.

(** ** The generation stage ([MCQGenerationAgent]) *)

Module MCQGenerationAgent.
Section Agent.
Context {World : Type} (svc : Services World).

(** One [MCQOption(...)] of the list comprehension over
    [mcq_data["options"]]. *)
Definition build_option (mcq_data : McqData) (opt : OptionData)
    : result MCQOption :=
  label <~ getitem "label" (od_label opt);;
  text <~ getitem "text" (od_text opt);;
  correct <~ getitem "correct_answer" (md_correct_answer mcq_data);;
  Ok {| label := label; text := text; is_correct := String.eqb label correct |}.

Fixpoint build_options (mcq_data : McqData) (opts : list OptionData)
    : result (list MCQOption) :=
  match opts with
  | [] => Ok []
  | opt :: rest =>
      o <~ build_option mcq_data opt;;
      os <~ build_options mcq_data rest;;
      Ok (o :: os)
  end.

(** The body of the conversion loop for item [i]. *)
Definition build_mcq (context_chunks : list Chunk) (i : nat)
    (mcq_data : McqData) : result MCQ :=
  let chunk_idx := default 0%Z (md_chunk_index mcq_data) in
  source_chunk <~
    (if (chunk_idx <? Z.of_nat (length context_chunks))%Z
     then list_getitem context_chunks chunk_idx
     else list_getitem context_chunks 0);;
  options_data <~ getitem "options" (md_options mcq_data);;
  options <~ build_options mcq_data options_data;;
  question <~ getitem "question" (md_question mcq_data);;
  correct_answer <~ getitem "correct_answer" (md_correct_answer mcq_data);;
  explanation <~ getitem "explanation" (md_explanation mcq_data);;
  difficulty <~ DifficultyLevel_call (default "medium" (md_difficulty mcq_data));;
  Ok {| question := question;
        options := options;
        correct_answer := correct_answer;
        explanation := explanation;
        difficulty := difficulty;
        chunk_id := ch_chunk_id source_chunk;
        source_filename := ch_source source_chunk;
        context_snippet := String.app (str_take 200 (ch_text source_chunk)) "...";
        metadata := {[ "generation_order" := Z.of_nat i ]} |}.

(** [for i, mcq_data in enumerate(mcqs_data): ... mcqs.append(mcq)] *)
Fixpoint build_mcqs (context_chunks : list Chunk) (i : nat)
    (mcqs_data : list McqData) (mcqs : list MCQ) : result (list MCQ) :=
  match mcqs_data with
  | [] => Ok mcqs
  | mcq_data :: rest =>
      mcq <~ build_mcq context_chunks i mcq_data;;
      build_mcqs context_chunks (S i) rest (mcqs ++ [mcq])
  end.

Definition generate_mcqs (context_chunks : list Chunk) (num_mcqs : Z)
    (difficulty : option string) : M World (list MCQ) :=
  match context_chunks with
  | [] => ret []
  | _ :: _ =>
      try_except
        (mcqs_data <-
           call (generation_service svc context_chunks num_mcqs difficulty);;
         lift (build_mcqs context_chunks 0 mcqs_data []))
        (λ e, print (LErrorGenerating e);; ret [])
  end.

End Agent.
End MCQGenerationAgent.

(** ** The critique stage ([MCQCriticAgent]) *)

Module MCQCriticAgent.
Section Agent.
Context {World : Type} (svc : Services World).

(** [next((chunk for chunk in context_chunks
          if str(chunk.get('chunk_id')) == mcq.chunk_id),
         context_chunks[0] if context_chunks else None)] *)
Definition find_source_chunk (context_chunks : list Chunk) (mcq : MCQ)
    : option Chunk :=
  match List.find (λ chunk, String.eqb (ch_chunk_id chunk) (chunk_id mcq))
                  context_chunks with
  | Some chunk => Some chunk
  | None => head context_chunks
  end.

(** The critique built when no source chunk is found. *)
Definition no_context_critique (i : nat) (mcq : MCQ) : CritiqueResult :=
  CritiqueResult_init i 5 5 0 (difficulty mcq)
    ["Could not find source context for verification"]
    ["Verify MCQ against original source"].

(** The critique built in the [except] branch. *)
Definition fallback_critique (i : nat) (mcq : MCQ) : CritiqueResult :=
  CritiqueResult_init i 7 7 7 (difficulty mcq)
    ["Could not complete full critique"]
    ["Manual review recommended"].

(** [CritiqueResult(...)] from the decoded answer. *)
Definition critique_of_data (i : nat) (critique_data : CritiqueData)
    : result CritiqueResult :=
  let clarity := default 5%float (cd_clarity_score critique_data) in
  let correctness := default 5%float (cd_correctness_score critique_data) in
  let grounding := default 5%float (cd_grounding_score critique_data) in
  assessment <~
    DifficultyLevel_call
      (default "medium" (cd_difficulty_assessment critique_data));;
  Ok (CritiqueResult_init i clarity correctness grounding assessment
        (default [] (cd_issues critique_data))
        (default [] (cd_suggestions critique_data))).

(** The [try] block for [mcqs[i]]. *)
Definition request_critique (i : nat) (mcq : MCQ) (source_chunk : Chunk)
    : M World CritiqueResult :=
  critique_data <- call (critic_service svc mcq source_chunk);;
  lift (critique_of_data i critique_data).

(** The body of the loop for [mcqs[i]]. *)
Definition critique_mcq (context_chunks : list Chunk) (i : nat) (mcq : MCQ)
    : M World CritiqueResult :=
  match find_source_chunk context_chunks mcq with
  | None => ret (no_context_critique i mcq)
  | Some source_chunk =>
      try_except
        (request_critique i mcq source_chunk)
        (λ e, print (LErrorCritiquing i e);; ret (fallback_critique i mcq))
  end.

(** [for i, mcq in enumerate(mcqs): ... critiques.append(..)] *)
Fixpoint critique_loop (context_chunks : list Chunk) (i : nat)
    (mcqs : list MCQ) (critiques : list CritiqueResult)
    : M World (list CritiqueResult) :=
  match mcqs with
  | [] => ret critiques
  | mcq :: rest =>
      critique <- critique_mcq context_chunks i mcq;;
      critique_loop context_chunks (S i) rest (critiques ++ [critique])
  end.

Definition critique_mcqs (mcqs : list MCQ) (context_chunks : list Chunk)
    : M World (list CritiqueResult) :=
  critique_loop context_chunks 0 mcqs [].

End Agent.
End MCQCriticAgent.

(** ** The orchestrator ([MCQOrchestrator]) *)

Module MCQOrchestrator.
Section Orchestrator.
Context {World : Type} (svc : Services World).

(** [retrieval_agent.retrieve_context(query, top_k)['chunks']]: the call is
    made outside any [try], so what it raises leaves the orchestrator. *)
Definition retrieve_context (query : string) (top_k : Z)
    : M World (list Chunk) :=
  λ st, let '(r, w) := retrieval_service svc query top_k (world st) in
        (r, mkState w (console st)).

(** [for i, critique in enumerate(critiques): print(..)] *)
Fixpoint print_scores (i : nat) (critiques : list CritiqueResult)
    : M World unit :=
  match critiques with
  | [] => ret tt
  | critique :: rest =>
      print (LCritiqueScore i (overall_score critique));;
      print_scores (S i) rest
  end.

(** [sum(c.overall_score for c in critiques) / len(critiques)
     if critiques else 0] *)
Definition average_score (critiques : list CritiqueResult) : float :=
  match critiques with
  | [] => 0%float
  | _ :: _ =>
      (fold_left (λ acc c, acc + overall_score c) critiques 0
       / float_of_nat (length critiques))%float
  end.

Definition generate_mcqs (query : string) (num_mcqs : Z)
    (difficulty : option string) (top_k_chunks : Z)
    : M World MCQGenerationResult :=
  print (LRetrieving query);;
  context_chunks <- retrieve_context query top_k_chunks;;
  print (LRetrieved (length context_chunks));;
  match context_chunks with
  | [] =>
      print LNoContext;;
      ret (MCQGenerationResult_init query [] [] [])
  | _ :: _ =>
      print (LGenerating num_mcqs);;
      mcqs <- MCQGenerationAgent.generate_mcqs svc context_chunks num_mcqs
                difficulty;;
      print (LGenerated (length mcqs));;
      match mcqs with
      | [] =>
          print LGenerationFailed;;
          ret (MCQGenerationResult_init query [] [] [])
      | _ :: _ =>
          print (LCritiquing (length mcqs));;
          critiques <- MCQCriticAgent.critique_mcqs svc mcqs context_chunks;;
          print (LCritiqued (length critiques));;
          print_scores 0 critiques;;
          print (LValidating (length mcqs));;
          let validations :=
            MCQValidationAgent.validate_mcqs mcqs critiques context_chunks in
          let valid_count :=
            length (filter (λ v, is_valid v = true) validations) in
          print (LValidated valid_count (length mcqs));;
          let result :=
            MCQGenerationResult_init query mcqs critiques validations in
          print (LSummaryQuery query);;
          print (LSummaryTotal (length mcqs));;
          print (LSummaryValid (length (valid_mcqs result)));;
          print (LSummaryInvalid (length (invalid_mcqs result)));;
          let avg_score := average_score critiques in
          print (LSummaryAverage avg_score);;
          ret result
      end
  end.

(** [for i, query in enumerate(queries, 1): ... results.append(result)];
    [n] is [len(queries)]. *)
Fixpoint batch_loop (n : nat) (num_mcqs_per_query : Z)
    (difficulty : option string) (top_k_chunks : Z)
    (i : nat) (queries : list string) (results : list MCQGenerationResult)
    : M World (list MCQGenerationResult) :=
  match queries with
  | [] => ret results
  | query :: rest =>
      print (LBatchQuery i n);;
      result <- generate_mcqs query num_mcqs_per_query difficulty top_k_chunks;;
      batch_loop n num_mcqs_per_query difficulty top_k_chunks (S i) rest
        (results ++ [result])
  end.

(** [generate_mcqs_batch(queries, num_mcqs_per_query, **kwargs)], the
    keyword arguments being those of [generate_mcqs]. *)
Definition generate_mcqs_batch (queries : list string)
    (num_mcqs_per_query : Z) (difficulty : option string) (top_k_chunks : Z)
    : M World (list MCQGenerationResult) :=
  print (LBatchStart (length queries));;
  results <- batch_loop (length queries) num_mcqs_per_query difficulty
               top_k_chunks 1 queries [];;
  let total_valid := sum_list ((λ r, length (valid_mcqs r)) <$> results) in
  let total_generated := sum_list ((λ r, length (mcqs r)) <$> results) in
  print (LBatchQueries (length queries));;
  print (LBatchGenerated total_generated);;
  print (LBatchValid total_valid);;
  rate <- lift (truediv total_valid total_generated);;
  print (LSuccessRate (rate * 100)%float);;
  ret results.

End Orchestrator.
End MCQOrchestrator.

(** ** Serialization of the question model ([to_dict], [from_dict]) *)

(** [DifficultyLevel.value] *)
Definition DifficultyLevel_value (d : DifficultyLevel) : string :=
  match d with
  | EASY => "easy"
  | MEDIUM => "medium"
  | HARD => "hard"
  end.

(** The dictionary of one option, by the keys [from_dict] reads. *)
Record OptionDict := mkOptionDict {
  dk_label : option string;
  dk_text : option string;
  dk_is_correct : option bool
}.

(** The dictionary of one MCQ, by the keys [from_dict] reads. *)
Record MCQDict := mkMCQDict {
  dk_question : option string;
  dk_options : option (list OptionDict);
  dk_correct_answer : option string;
  dk_explanation : option string;
  dk_difficulty : option string;
  dk_chunk_id : option string;
  dk_source_filename : option string;
  dk_context_snippet : option string;
  dk_metadata : option (gmap string Z)
}.

Definition MCQOption_to_dict (opt : MCQOption) : OptionDict :=
  {| dk_label := Some (label opt);
     dk_text := Some (text opt);
     dk_is_correct := Some (is_correct opt) |}.

(** [MCQ.to_dict] *)
Definition MCQ_to_dict (mcq : MCQ) : MCQDict :=
  {| dk_question := Some (question mcq);
     dk_options := Some (MCQOption_to_dict <$> options mcq);
     dk_correct_answer := Some (correct_answer mcq);
     dk_explanation := Some (explanation mcq);
     dk_difficulty := Some (DifficultyLevel_value (difficulty mcq));
     dk_chunk_id := Some (chunk_id mcq);
     dk_source_filename := Some (source_filename mcq);
     dk_context_snippet := Some (context_snippet mcq);
     dk_metadata := Some (metadata mcq) |}.

(** One [MCQOption(...)] of the list comprehension of [from_dict]. *)
Definition MCQOption_from_dict (opt : OptionDict) : result MCQOption :=
  label <~ getitem "label" (dk_label opt);;
  text <~ getitem "text" (dk_text opt);;
  Ok {| label := label; text := text;
        is_correct := default false (dk_is_correct opt) |}.

Fixpoint MCQOptions_from_dict (opts : list OptionDict)
    : result (list MCQOption) :=
  match opts with
  | [] => Ok []
  | opt :: rest =>
      o <~ MCQOption_from_dict opt;;
      os <~ MCQOptions_from_dict rest;;
      Ok (o :: os)
  end.

(** [MCQ.from_dict] *)
Definition MCQ_from_dict (data : MCQDict) : result MCQ :=
  options_data <~ getitem "options" (dk_options data);;
  options <~ MCQOptions_from_dict options_data;;
  question <~ getitem "question" (dk_question data);;
  correct_answer <~ getitem "correct_answer" (dk_correct_answer data);;
  explanation <~ getitem "explanation" (dk_explanation data);;
  level <~ getitem "difficulty" (dk_difficulty data);;
  difficulty <~ DifficultyLevel_call level;;
  chunk_id <~ getitem "chunk_id" (dk_chunk_id data);;
  source_filename <~ getitem "source_filename" (dk_source_filename data);;
  Ok {| question := question;
        options := options;
        correct_answer := correct_answer;
        explanation := explanation;
        difficulty := difficulty;
        chunk_id := chunk_id;
        source_filename := source_filename;
        context_snippet := default "" (dk_context_snippet data);
        metadata := default ∅ (dk_metadata data) |}.

(** ** The base retriever ([RetrieverAgent]) *)

(** A value of the metadata stored with a vector. *)
Inductive MetaValue :=
  | MVStr (s : string)
  | MVNum (x : float)
  | MVBool (b : bool)
  | MVList (l : list string).

(** A match returned by the index. *)
Record Match := mkMatch {
  match_id : string;
  match_score : float;
  match_metadata : gmap string MetaValue
}.

(** [RetrievedChunk]; its metadata has the four keys [retrieve] writes, each
    holding the stored value or [None]. *)
Record RetrievedChunk := mkRetrievedChunk {
  rc_text : MetaValue;
  rc_score : float;
  rc_source : option MetaValue;
  rc_filename : option MetaValue;
  rc_chunk_id : option MetaValue;
  rc_id : string
}.

(** [RetrieverAgent], with the two collaborators it holds: the embedding
    generator, and the vector store whose index is [None] until
    [initialize_index] has run. *)
Record RetrieverAgent (World : Type) := mkRetrieverAgent {
  generate_query_embedding : string → World → list float * World;
  index :
    option (list float → Z → option (gmap string MetaValue) → World
            → list Match * World);
  top_k : Z;
  score_threshold : float
}.
Arguments generate_query_embedding {World} r.
Arguments index {World} r.
Arguments top_k {World} r.
Arguments score_threshold {World} r.

Module BaseRetriever.
Section Agent.
Context {World : Type} (self : RetrieverAgent World).

(** [PineconeVectorStore.query] *)
Definition query (query_embedding : list float) (k : Z)
    (filter_dict : option (gmap string MetaValue)) : M World (list Match) :=
  λ st, match index self with
        | None => (Raise ValueError, st)
        | Some index_query =>
            let '(matches, w) :=
              index_query query_embedding k filter_dict (world st) in
            (Ok matches, mkState w (console st))
        end.

(** [RetrievedChunk(...)] for a match. *)
Definition chunk_of_match (m : Match) : RetrievedChunk :=
  {| rc_text := default (MVStr "") (match_metadata m !! "text");
     rc_score := match_score m;
     rc_source := match_metadata m !! "source";
     rc_filename := match_metadata m !! "filename";
     rc_chunk_id := match_metadata m !! "chunk_id";
     rc_id := match_id m |}.

(** [for match in results: if match.score >= self.score_threshold: ...] *)
Fixpoint collect (results : list Match) (retrieved_chunks : list RetrievedChunk)
    : list RetrievedChunk :=
  match results with
  | [] => retrieved_chunks
  | m :: rest =>
      if PrimFloat.leb (score_threshold self) (match_score m)
      then collect rest (retrieved_chunks ++ [chunk_of_match m])
      else collect rest retrieved_chunks
  end.

(** [top_k or self.top_k] *)
Definition effective_top_k (k : option Z) : Z :=
  match k with
  | Some k' => if (k' =? 0)%Z then top_k self else k'
  | None => top_k self
  end.

(** [RetrieverAgent.retrieve] *)
Definition retrieve (query_text : string) (k : option Z)
    (filter_dict : option (gmap string MetaValue))
    : M World (list RetrievedChunk) :=
  let k := effective_top_k k in
  query_embedding <-
    (λ st, let '(e, w) := generate_query_embedding self query_text (world st) in
           (Ok e, mkState w (console st)));;
  results <- query query_embedding k filter_dict;;
  ret (collect results []).

End Agent.
End BaseRetriever.

(** ** The size-based splitter ([RecursiveTextChunker._split_by_size]) *)

(** [s[a:b]] for Python [int]s: a negative bound counts from the end and
    both bounds are clamped to the string. *)
Definition str_slice (s : string) (a b : Z) : string :=
  let n := Z.of_nat (String.length s) in
  let clamp i := if (i <? 0)%Z then Z.max (i + n) 0 else Z.min i n in
  let lo := clamp a in
  let hi := clamp b in
  string_of_list_ascii
    (take (Z.to_nat (hi - lo)) (drop (Z.to_nat lo) (list_ascii_of_string s))).

Module RecursiveTextChunker.
Section Chunker.
Context (chunk_size chunk_overlap : Z).

(** The [while] loop of [_split_by_size], run for at most [fuel]
    iterations; [None] when the fuel runs out. *)
Fixpoint split_loop (fuel : nat) (text : string) (start : Z)
    (chunks : list string) : option (list string) :=
  match fuel with
  | O => None
  | S fuel' =>
      if (start <? Z.of_nat (String.length text))%Z
      then
        let end_ := (start + chunk_size)%Z in
        split_loop fuel' text (end_ - chunk_overlap)%Z
          (chunks ++ [str_slice text start end_])
      else Some chunks
  end.

Definition _split_by_size (fuel : nat) (text : string) : option (list string) :=
  split_loop fuel text 0 [].

End Chunker.
End RecursiveTextChunker.

(** * Vocabulary of the properties *)

(** [validations[i]] exists and accepts. *)
Definition accepted (validations : list ValidationResult) (i : nat) : bool :=
  match validations !! i with
  | Some v => is_valid v
  | None => false
  end.

(** The elements of [l], in order, whose index (counted from [start])
    satisfies [keep]. *)
Definition select_from (keep : nat → bool) (start : nat) (l : list MCQ)
    : list MCQ :=
  (filter (λ p, keep p.1 = true) (imap (λ j m, (start + j, m)) l)).*2.

(** The errors of the structural check, one for each condition that fails,
    in the order of the checks. *)
Definition format_errors (mcq : MCQ) : list ValidationError :=
  (if (String.length (strip (question mcq)) <? 10)%nat
   then [QuestionTooShort] else [])
  ++ (if (length (options mcq) =? 4)%nat
      then [] else [WrongOptionCount (length (options mcq))])
  ++ (if (length (filter (λ opt, is_correct opt = true) (options mcq)) =? 1)%nat
      then []
      else [WrongCorrectCount
              (length (filter (λ opt, is_correct opt = true) (options mcq)))])
  ++ (if (String.length (strip (explanation mcq)) <? 10)%nat
      then [ExplanationTooShort] else [])
  ++ (if bool_decide (MCQValidationAgent.actual_labels mcq
                      = MCQValidationAgent.expected_labels)
      then [] else [InvalidOptionLabels (MCQValidationAgent.actual_labels mcq)]).

(** The errors of the metadata check. *)
Definition metadata_errors (mcq : MCQ) : list ValidationError :=
  (if truthy (chunk_id mcq) then [] else [MissingChunkId])
  ++ (if truthy (source_filename mcq) then [] else [MissingSourceFilename]).

(** The errors of the grounding and hallucination checks. *)
Definition grounding_errors (critique : option CritiqueResult)
    : list ValidationError :=
  match critique with
  | Some c =>
      (if PrimFloat.ltb (grounding_score c) 6
       then [LowGroundingScore (grounding_score c)] else [])
      ++ (if PrimFloat.ltb (grounding_score c) 5
          then [PotentialHallucination] else [])
  | None => []
  end.

(** Sample data. *)
Definition sample_options : list MCQOption :=
  [ mkMCQOption "A" "Paris" true; mkMCQOption "B" "Rome" false;
    mkMCQOption "C" "Oslo" false; mkMCQOption "D" "Bern" false ].

Definition sample_mcq : MCQ :=
  {| question := "What is the capital of France?";
     options := sample_options;
     correct_answer := "A";
     explanation := "The text names Paris as the capital.";
     difficulty := EASY;
     chunk_id := "0";
     source_filename := "geo.txt";
     context_snippet := "Paris is the capital of France...";
     metadata := {[ "generation_order" := 0%Z ]} |}.

Definition sample_critique (grounding : float) : CritiqueResult :=
  CritiqueResult_init 0 9 9 grounding EASY [] [].

(** A key of a decoded object is absent. *)
Definition absent {A} (o : option A) : bool :=
  match o with
  | None => true
  | Some _ => false
  end.

Definition malformed_option (opt : OptionData) : bool :=
  absent (od_label opt) || absent (od_text opt).

(** An item from which no MCQ can be built: a required key is absent, an
    option lacks its label or text, the difficulty is not one of the three
    values, or the fragment reference is below [-len(context_chunks)]. *)
Definition malformed_item (context_chunks : list Chunk) (d : McqData) : bool :=
  absent (md_question d)
  || absent (md_correct_answer d)
  || absent (md_explanation d)
  || match md_options d with
     | None => true
     | Some opts => existsb malformed_option opts
     end
  || match md_difficulty d with
     | Some s => absent (DifficultyLevel_of_value s)
     | None => false
     end
  || match md_chunk_index d with
     | Some k => (k <? - Z.of_nat (length context_chunks))%Z
     | None => false
     end.

Definition sample_chunks : list Chunk :=
  [ mkChunk "Paris is the capital of France." 0.875 "0" "france.txt";
    mkChunk "Rome is the capital of Italy." 0.75 "1" "italy.txt" ].

Definition sample_item (chunk_index : option Z) : McqData :=
  {| md_question := Some "What is the capital of France?";
     md_options :=
       Some [ mkOptionData (Some "A") (Some "Paris");
              mkOptionData (Some "B") (Some "Rome");
              mkOptionData (Some "C") (Some "Oslo");
              mkOptionData (Some "D") (Some "Bern") ];
     md_correct_answer := Some "A";
     md_explanation := Some "The text names Paris as the capital.";
     md_difficulty := Some "easy";
     md_chunk_index := chunk_index |}.

(** Collaborators that give the same answers at every call. *)
Definition sample_services (chunks : list Chunk)
    (generated : reply (list McqData)) (critique : reply CritiqueData)
    : Services unit :=
  {| retrieval_service := λ _ _ w, (Ok chunks, w);
     generation_service := λ _ _ _ w, (generated, w);
     critic_service := λ _ _ w, (critique, w) |}.

Definition initial_state : State unit := mkState tt [].

(** Collaborators whose retrieval raises [e] at every call. *)
Definition failing_retrieval (e : exn) : Services unit :=
  {| retrieval_service := λ _ _ w, (Raise e, w);
     generation_service := λ _ _ _ w, (Malformed, w);
     critic_service := λ _ _ w, (Malformed, w) |}.

(** [sample_mcq] with a declared answer that is not the flagged option. *)
Definition mismatched_mcq : MCQ :=
  {| question := question sample_mcq;
     options := options sample_mcq;
     correct_answer := "B";
     explanation := explanation sample_mcq;
     difficulty := difficulty sample_mcq;
     chunk_id := chunk_id sample_mcq;
     source_filename := source_filename sample_mcq;
     context_snippet := context_snippet sample_mcq;
     metadata := metadata sample_mcq |}.

(** [mcq] with another declared answer. *)
Definition with_correct_answer (answer : string) (mcq : MCQ) : MCQ :=
  {| question := question mcq;
     options := options mcq;
     correct_answer := answer;
     explanation := explanation mcq;
     difficulty := difficulty mcq;
     chunk_id := chunk_id mcq;
     source_filename := source_filename mcq;
     context_snippet := context_snippet mcq;
     metadata := metadata mcq |}.

(** The state in which the critique stage reaches [mcqs[i]]: the state after
    the loop has run on the MCQs before it. *)
Definition state_before_critique {World} (svc : Services World)
    (mcqs : list MCQ) (context_chunks : list Chunk) (i : nat)
    (st : State World) : State World :=
  (MCQCriticAgent.critique_mcqs svc (take i mcqs) context_chunks st).2.

(** A computation that returns a value from every state. *)
Definition never_raises {World A} (m : M World A) : Prop :=
  ∀ st, ∃ a st', m st = (Ok a, st').

(** The totals of the batch summary. *)
Definition total_valid (results : list MCQGenerationResult) : nat :=
  sum_list ((λ r, length (valid_mcqs r)) <$> results).

Definition total_generated (results : list MCQGenerationResult) : nat :=
  sum_list ((λ r, length (mcqs r)) <$> results).

(** A critique answer that omits [grounding_score] and the assessment. *)
Definition partial_critique_data : CritiqueData :=
  {| cd_clarity_score := Some 8%float;
     cd_correctness_score := Some 9%float;
     cd_grounding_score := None;
     cd_difficulty_assessment := None;
     cd_issues := None;
     cd_suggestions := None |}.

(** A critique answer with every field, scoring 9.0 on the three axes. *)
Definition full_critique_data : CritiqueData :=
  {| cd_clarity_score := Some 9%float;
     cd_correctness_score := Some 9%float;
     cd_grounding_score := Some 9%float;
     cd_difficulty_assessment := Some "easy";
     cd_issues := Some [];
     cd_suggestions := Some [] |}.

(** Collaborators over a world that counts the calls of the critic: the call
    fails when the count is even and answers [partial_critique_data] when it
    is odd. *)
Definition alternating_critic : Services nat :=
  {| retrieval_service := λ _ _ n, (Ok sample_chunks, n);
     generation_service := λ _ _ _ n, (Malformed, n);
     critic_service := λ _ _ n,
       (if Nat.even n then ServiceFailed else Parsed partial_critique_data,
        S n) |}.

(** A computation that returns, from every state, a value that satisfies
    [P]. *)
Definition ensures {World A} (m : M World A) (P : A → Prop) : Prop :=
  ∀ st, ∃ a st', m st = (Ok a, st') ∧ P a.

(** Whatever the computation returns satisfies [P]; it may also raise. *)
Definition on_return {World A} (m : M World A) (P : A → Prop) : Prop :=
  ∀ st a st', m st = (Ok a, st') → P a.

(** [validations[i]] exists and records no error. *)
Definition error_free (validations : list ValidationResult) (i : nat) : bool :=
  match validations !! i with
  | Some v => match validation_errors v with [] => true | _ :: _ => false end
  | None => false
  end.

(** An index with three stored vectors, and a retriever over it. *)
Definition sample_matches : list Match :=
  [ mkMatch "france.txt_0" 0.875
      {[ "text" := MVStr "Paris is the capital of France.";
         "filename" := MVStr "france.txt"; "chunk_id" := MVNum 0 ]};
    mkMatch "italy.txt_0" 0.5
      {[ "text" := MVStr "Rome is the capital of Italy." ]};
    mkMatch "norway.txt_0" 0.75 ∅ ].

Definition sample_retriever : RetrieverAgent unit :=
  {| generate_query_embedding := λ _ w, ([1%float; 0%float], w);
     index := Some (λ _ _ _ w, (sample_matches, w));
     top_k := 5;
     score_threshold := 0.75 |}.

(** A dictionary without the optional keys. *)
Definition sample_dict : MCQDict :=
  {| dk_question := Some "What is the capital of France?";
     dk_options := Some [mkOptionDict (Some "A") (Some "Paris") None];
     dk_correct_answer := Some "A";
     dk_explanation := Some "The text names Paris as the capital.";
     dk_difficulty := Some "hard";
     dk_chunk_id := Some "0";
     dk_source_filename := Some "france.txt";
     dk_context_snippet := None;
     dk_metadata := None |}.

(** A fragment whose text has 250 characters. *)
Definition long_chunk : Chunk :=
  mkChunk (string_of_list_ascii (replicate 250 "x"%char)) 0.875 "0" "long.txt".

(** The chunks put end to end. *)
Definition concat_all (chunks : list string) : string :=
  foldr String.app "" chunks.

(** * Properties *)

(** ** The valid/invalid partition of a generation result *)

Lemma select_from_cons keep start m l :
  select_from keep start (m :: l) =
  (if keep start then [m] else []) ++ select_from keep (S start) l.
Proof.
  unfold select_from. rewrite imap_cons. cbn [fst].
  replace (start + 0) with start by lia.
  rewrite (imap_ext ((λ j m0, (start + j, m0)) ∘ S) (λ j m0, (S start + j, m0)))
    by (intros; cbn; f_equal; lia).
  rewrite filter_cons. cbn [fst].
  destruct (keep start) eqn:E.
  - rewrite decide_True by done. reflexivity.
  - rewrite decide_False by (by intros ?). reflexivity.
Qed.

Lemma partition_mcqs_spec validations l : ∀ i valid invalid,
  partition_mcqs validations i l valid invalid =
  (valid ++ select_from (accepted validations) i l,
   invalid ++ select_from (λ j, negb (accepted validations j)) i l).
Proof.
  induction l as [|m l IH]; intros i valid invalid.
  - cbn. unfold select_from. cbn. by rewrite !app_nil_r.
  - cbn [partition_mcqs]. rewrite !select_from_cons.
    fold (accepted validations i).
    destruct (accepted validations i); rewrite IH; cbn [negb];
      by rewrite <- ?app_assoc.
Qed.

Lemma select_from_length keep l : ∀ start,
  length (select_from keep start l)
  + length (select_from (λ j, negb (keep j)) start l) = length l.
Proof.
  induction l as [|m l IH]; intros start; [done|].
  rewrite !select_from_cons, !length_app.
  specialize (IH (S start)).
  destruct (keep start); cbn [negb length] in *; lia.
Qed.

Lemma select_from_lookup keep l : ∀ start i m,
  l !! i = Some m → keep (start + i) = true → m ∈ select_from keep start l.
Proof.
  induction l as [|x l IH]; intros start i m Hl Hk; [done|].
  rewrite select_from_cons. destruct i as [|i]; cbn in Hl.
  - injection Hl as ->. replace (start + 0) with start in Hk by lia.
    rewrite Hk. set_solver.
  - apply elem_of_app. right. apply (IH (S start) i); [done|].
    by replace (S start + i) with (start + S i) by lia.
Qed.

(** C2. A result built by the constructor keeps [mcqs] as given and splits it
    into [valid_mcqs] and [invalid_mcqs]: [mcqs[i]] goes to [valid_mcqs]
    exactly when [validations[i]] exists and [is_valid()] holds for it, the
    other ones go to [invalid_mcqs], both in order; the two lengths add up to
    [len(mcqs)], and an MCQ at an index without a validation record is in
    [invalid_mcqs]. *)
Theorem generation_result_partition (query : string) (ms : list MCQ)
    (cs : list CritiqueResult) (vs : list ValidationResult) :
  let r := MCQGenerationResult_init query ms cs vs in
  mcqs r = ms
  ∧ length (valid_mcqs r) + length (invalid_mcqs r) = length (mcqs r)
  ∧ valid_mcqs r = select_from (accepted vs) 0 ms
  ∧ invalid_mcqs r = select_from (λ i, negb (accepted vs i)) 0 ms
  ∧ (∀ i m, ms !! i = Some m → (length vs ≤ i)%nat → m ∈ invalid_mcqs r).
Proof.
  unfold MCQGenerationResult_init.
  rewrite partition_mcqs_spec. cbn.
  split_and!; try done.
  - apply select_from_length.
  - intros i m Hm Hi. apply (select_from_lookup _ _ 0 i); [done|].
    cbn. unfold accepted. by rewrite (lookup_ge_None_2 vs i).
Qed.

(** ** The validation stage *)

Lemma strip_empty_or_short (s : string) :
  negb (truthy s) || (String.length (strip s) <? 10)%nat
  = (String.length (strip s) <? 10)%nat.
Proof. by destruct s. Qed.

Lemma check_format_spec (mcq : MCQ) (errors : list ValidationError) :
  MCQValidationAgent._check_format mcq errors
  = (bool_decide (format_errors mcq = []), errors ++ format_errors mcq).
Proof.
  unfold MCQValidationAgent._check_format, format_errors.
  rewrite !strip_empty_or_short.
  destruct (String.length (strip (question mcq)) <? 10)%nat;
  destruct (length (options mcq) =? 4)%nat;
  destruct (length (filter _ (options mcq)) =? 1)%nat;
  destruct (String.length (strip (explanation mcq)) <? 10)%nat;
  destruct (bool_decide (_ = MCQValidationAgent.expected_labels));
  cbn [negb app]; rewrite <- ?app_assoc, ?app_nil_r; reflexivity.
Qed.

Lemma check_metadata_spec (mcq : MCQ) (errors : list ValidationError) :
  MCQValidationAgent._check_metadata mcq errors
  = (bool_decide (metadata_errors mcq = []), errors ++ metadata_errors mcq).
Proof.
  unfold MCQValidationAgent._check_metadata, metadata_errors,
    MCQValidationAgent.truthy_difficulty.
  destruct (truthy (chunk_id mcq)); destruct (truthy (source_filename mcq));
  cbn [negb app]; rewrite <- ?app_assoc, ?app_nil_r; reflexivity.
Qed.

(** The result for one MCQ, with the checks written out. *)
Lemma validate_mcq_spec (cs : list CritiqueResult) (i : nat) (mcq : MCQ) :
  let errors := format_errors mcq ++ metadata_errors mcq
                ++ grounding_errors (cs !! i) in
  MCQValidationAgent.validate_mcq cs i mcq =
  {| v_mcq_index := i;
     status := MCQValidationAgent.determine_status (cs !! i) errors;
     is_context_grounded :=
       match cs !! i with
       | Some c => negb (PrimFloat.ltb (grounding_score c) 6)
       | None => true
       end;
     is_properly_formatted := bool_decide (format_errors mcq = []);
     has_required_metadata := bool_decide (metadata_errors mcq = []);
     has_hallucination :=
       match cs !! i with
       | Some c => PrimFloat.ltb (grounding_score c) 5
       | None => false
       end;
     validation_errors := errors |}.
Proof.
  unfold MCQValidationAgent.validate_mcq.
  rewrite check_format_spec, check_metadata_spec. cbn [app].
  unfold MCQValidationAgent.check_grounding,
    MCQValidationAgent.check_hallucination, grounding_errors.
  destruct (cs !! i) as [c|]; cbn zeta.
  - destruct (PrimFloat.ltb (grounding_score c) 6);
    destruct (PrimFloat.ltb (grounding_score c) 5);
    cbn [negb]; rewrite <- ?app_assoc, ?app_nil_r; reflexivity.
  - rewrite ?app_nil_r. reflexivity.
Qed.

Lemma validate_mcqs_lookup (ms : list MCQ) (cs : list CritiqueResult)
    (chunks : list Chunk) (i : nat) (mcq : MCQ) :
  ms !! i = Some mcq →
  MCQValidationAgent.validate_mcqs ms cs chunks !! i
  = Some (MCQValidationAgent.validate_mcq cs i mcq).
Proof.
  intros H. unfold MCQValidationAgent.validate_mcqs.
  by rewrite list_lookup_imap, H.
Qed.

(** Membership in the error lists, by cases on the checks. *)
Ltac split_checks :=
  repeat match goal with
  | |- context [ (?a <? ?b)%nat ] => destruct (Nat.ltb_spec a b)
  | |- context [ (?a =? ?b)%nat ] => destruct (Nat.eqb_spec a b)
  | |- context [ bool_decide ?P ] => destruct (bool_decide_reflect P)
  | |- context [ truthy ?s ] => destruct (truthy s) eqn:?
  | |- context [ PrimFloat.ltb ?x ?y ] => destruct (PrimFloat.ltb x y) eqn:?
  end.

Ltac solve_errors :=
  unfold format_errors, metadata_errors, grounding_errors;
  split_checks; cbn [app];
  rewrite ?elem_of_cons, ?elem_of_nil;
  unfold not; try (split; intros); intros;
  repeat match goal with
  | H : _ ∨ _ |- _ => destruct H
  | H : _ ∧ _ |- _ => destruct H
  | H : False |- _ => destruct H
  end;
  try discriminate; try congruence; try lia; try tauto; eauto 10.



(** C4. For the MCQ at index [i] with the critique at the same index,
    [is_context_grounded] is false, and an error carrying the score is
    recorded, exactly when [grounding_score < 6.0]; [has_hallucination] is
    true, and its error is recorded, exactly when [grounding_score < 5.0].
    So a score of 5.5 fires the first check only and a score of 4.0 fires
    both.  Without a critique at that index [is_context_grounded] stays true,
    [has_hallucination] stays false and neither error is recorded. *)
Theorem grounding_check (ms : list MCQ) (cs : list CritiqueResult)
    (chunks : list Chunk) (i : nat) (mcq : MCQ) :
  ms !! i = Some mcq →
  ∃ v, MCQValidationAgent.validate_mcqs ms cs chunks !! i = Some v
    ∧ match cs !! i with
      | Some c =>
          (is_context_grounded v = false ↔
             PrimFloat.ltb (grounding_score c) 6 = true)
          ∧ (LowGroundingScore (grounding_score c) ∈ validation_errors v ↔
               PrimFloat.ltb (grounding_score c) 6 = true)
          ∧ (∀ s, LowGroundingScore s ∈ validation_errors v →
                  s = grounding_score c)
          ∧ (has_hallucination v = true ↔
               PrimFloat.ltb (grounding_score c) 5 = true)
          ∧ (PotentialHallucination ∈ validation_errors v ↔
               PrimFloat.ltb (grounding_score c) 5 = true)
          ∧ (grounding_score c = 5.5%float →
               is_context_grounded v = false ∧ has_hallucination v = false)
          ∧ (grounding_score c = 4%float →
               is_context_grounded v = false ∧ has_hallucination v = true)
      | None =>
          is_context_grounded v = true
          ∧ has_hallucination v = false
          ∧ (∀ s, LowGroundingScore s ∉ validation_errors v)
          ∧ PotentialHallucination ∉ validation_errors v
      end.
Proof.
  intros Hi. eexists. split; [by apply validate_mcqs_lookup|].
  rewrite validate_mcq_spec.
  cbn [is_context_grounded has_hallucination validation_errors].
  destruct (cs !! i) as [c|].
  - split_and!.
    + by destruct (PrimFloat.ltb (grounding_score c) 6).
    + rewrite !elem_of_app. solve_errors.
    + intros s. rewrite !elem_of_app. solve_errors.
    + reflexivity.
    + rewrite !elem_of_app. solve_errors.
    + by intros ->.
    + by intros ->.
  - split_and!; try reflexivity.
    + intros s. rewrite !elem_of_app. solve_errors.
    + rewrite !elem_of_app. solve_errors.
Qed.

Lemma grounding_check_witness :
  ∃ v, MCQValidationAgent.validate_mcqs [sample_mcq] [sample_critique 5.5]
         (@nil Chunk) !! 0%nat = Some v
    ∧ is_context_grounded v = false
    ∧ has_hallucination v = false.
Proof.
  destruct (grounding_check [sample_mcq] [sample_critique 5.5] [] 0
              sample_mcq eq_refl) as (v & Hv & Hc).
  cbn [lookup list_lookup] in Hc.
  destruct Hc as (_ & _ & _ & _ & _ & Hscore & _).
  exists v. split; [exact Hv|]. apply Hscore. reflexivity.
Defined.

(** C5. The status of the MCQ at index [i] follows from the errors that the
    structural, metadata and grounding checks accumulated: [VALID] exactly
    when there is none; [NEEDS_REVISION] exactly when there is at least one
    and the critique at index [i] exists with [overall_score >= 7.0];
    [INVALID] in every other case. *)
Theorem status_assignment (ms : list MCQ) (cs : list CritiqueResult)
    (chunks : list Chunk) (i : nat) (mcq : MCQ) :
  ms !! i = Some mcq →
  ∃ v, MCQValidationAgent.validate_mcqs ms cs chunks !! i = Some v
    ∧ validation_errors v
      = format_errors mcq ++ metadata_errors mcq ++ grounding_errors (cs !! i)
    ∧ (status v = VALID ↔ validation_errors v = [])
    ∧ (status v = NEEDS_REVISION ↔
         validation_errors v ≠ []
         ∧ ∃ c, cs !! i = Some c ∧ PrimFloat.leb 7 (overall_score c) = true)
    ∧ (status v = INVALID ↔
         validation_errors v ≠ []
         ∧ ¬ ∃ c, cs !! i = Some c ∧ PrimFloat.leb 7 (overall_score c) = true).
Proof.
  intros Hi. eexists. split; [by apply validate_mcqs_lookup|].
  rewrite validate_mcq_spec. cbn [status validation_errors].
  split; [reflexivity|].
  generalize (format_errors mcq ++ metadata_errors mcq
              ++ grounding_errors (cs !! i)).
  intros errors. unfold MCQValidationAgent.determine_status.
  destruct errors as [|e errors].
  - split_and!; split; try done; intros [? _]; done.
  - destruct (cs !! i) as [c|].
    + destruct (PrimFloat.leb 7 (overall_score c)) eqn:Hscore.
      * split_and!; split; try done.
        -- intros _. split; [done|]. by exists c.
        -- intros [_ Hno]. destruct Hno. by exists c.
      * split_and!; split; try done.
        -- intros [_ (c' & [= <-] & Hc')]. congruence.
        -- intros _. split; [done|]. intros (c' & [= <-] & Hc'). congruence.
    + split_and!; split; try done.
      * intros [_ (c' & [=] & _)].
      * intros _. split; [done|]. intros (c' & [=] & _).
Qed.

Lemma status_assignment_witness :
  ∃ v, MCQValidationAgent.validate_mcqs [sample_mcq] [sample_critique 5.5]
         (@nil Chunk) !! 0%nat = Some v
    ∧ status v = NEEDS_REVISION.
Proof.
  destruct (status_assignment [sample_mcq] [sample_critique 5.5] [] 0
              sample_mcq eq_refl) as (v & Hv & Herrors & _ & Hrevise & _).
  exists v. split; [exact Hv|].
  apply Hrevise. rewrite Herrors. split; [by vm_compute|].
  exists (sample_critique 5.5). split; reflexivity.
Defined.

(** ** The generation stage *)

Section Generation.
Context {World : Type} (svc : Services World).

Lemma build_option_inv d opt o :
  MCQGenerationAgent.build_option d opt = Ok o →
  ∃ ca, md_correct_answer d = Some ca
      ∧ od_label opt = Some (label o)
      ∧ od_text opt = Some (text o)
      ∧ is_correct o = String.eqb (label o) ca.
Proof.
  unfold MCQGenerationAgent.build_option.
  destruct (od_label opt) as [l|], (od_text opt) as [t|],
    (md_correct_answer d) as [ca|]; cbn; intros [= <-]; eauto.
Qed.

Lemma build_option_raise d opt :
  md_correct_answer d ≠ None →
  (∃ e, MCQGenerationAgent.build_option d opt = Raise e)
  ↔ malformed_option opt = true.
Proof.
  unfold MCQGenerationAgent.build_option, malformed_option.
  destruct (od_label opt) as [l|], (od_text opt) as [t|],
    (md_correct_answer d) as [ca|]; cbn; intros Hca;
    try done; split; try done; eauto; by intros [e [=]].
Qed.

Lemma build_options_inv d opts : ∀ os,
  MCQGenerationAgent.build_options d opts = Ok os →
  ∀ o, o ∈ os →
  ∃ ca, md_correct_answer d = Some ca ∧ is_correct o = String.eqb (label o) ca.
Proof.
  induction opts as [|opt opts IH]; intros os; cbn.
  - intros [= <-] o Ho. by apply elem_of_nil in Ho.
  - destruct (MCQGenerationAgent.build_option d opt) as [o1|e] eqn:E1;
      cbn; [|done].
    destruct (MCQGenerationAgent.build_options d opts) as [os1|e] eqn:E2;
      cbn; [|done].
    intros [= <-] o Ho. apply elem_of_cons in Ho as [->|Ho].
    + apply build_option_inv in E1 as (ca & ? & _ & _ & ?). eauto.
    + by apply (IH os1).
Qed.

Lemma build_options_raise d opts :
  md_correct_answer d ≠ None →
  (∃ e, MCQGenerationAgent.build_options d opts = Raise e)
  ↔ existsb malformed_option opts = true.
Proof.
  intros Hca. induction opts as [|opt opts IH]; cbn.
  - split; [by intros [e [=]]|done].
  - pose proof (build_option_raise d opt Hca) as Hopt.
    destruct (MCQGenerationAgent.build_option d opt) as [o1|e1]; cbn.
    + destruct (malformed_option opt);
        [destruct Hopt as [_ Hopt]; by destruct Hopt as [e [=]]|].
      cbn. rewrite <- IH.
      destruct (MCQGenerationAgent.build_options d opts); cbn;
        split; intros [e' [=]]; eauto.
    + destruct Hopt as [Hopt _]. rewrite Hopt by eauto. cbn. split; eauto.
Qed.

(** The fragment an item refers to. *)
Lemma source_chunk_resolution (chunks : list Chunk) (c0 : Chunk) (k : Z) :
  head chunks = Some c0 →
  let source :=
    if (k <? Z.of_nat (length chunks))%Z
    then list_getitem chunks k else list_getitem chunks 0 in
  ((Z.of_nat (length chunks) ≤ k)%Z → source = Ok c0)
  ∧ (k = 0%Z → source = Ok c0)
  ∧ ((k < - Z.of_nat (length chunks))%Z → source = Raise IndexError)
  ∧ ((- Z.of_nat (length chunks) ≤ k)%Z → ∃ c, source = Ok c).
Proof.
  intros Hhead. destruct chunks as [|c chunks]; [done|].
  injection Hhead as ->. cbn zeta.
  assert (Hzero : list_getitem (c0 :: chunks) 0 = Ok c0) by done.
  split_and!.
  - intros Hk. destruct (Z.ltb_spec k (Z.of_nat (length (c0 :: chunks))));
      [lia|done].
  - intros ->. by destruct (0 <? Z.of_nat (length (c0 :: chunks)))%Z.
  - intros Hk. destruct (Z.ltb_spec k (Z.of_nat (length (c0 :: chunks))));
      [|lia].
    unfold list_getitem.
    destruct (Z.ltb_spec k 0); [|lia].
    destruct (Z.ltb_spec (k + Z.of_nat (length (c0 :: chunks))) 0); [done|lia].
  - intros Hk. destruct (Z.ltb_spec k (Z.of_nat (length (c0 :: chunks))));
      [|eauto].
    unfold list_getitem.
    destruct (Z.ltb_spec k 0).
    + destruct (Z.ltb_spec (k + Z.of_nat (length (c0 :: chunks))) 0); [lia|].
      destruct (lookup_lt_is_Some_2 (c0 :: chunks)
                  (Z.to_nat (k + Z.of_nat (length (c0 :: chunks)))))
        as [x ->]; [lia|eauto].
    + destruct (Z.ltb_spec k 0); [lia|].
      destruct (lookup_lt_is_Some_2 (c0 :: chunks) (Z.to_nat k))
        as [x ->]; [lia|eauto].
Qed.

(** An item raises an exception in the conversion loop exactly when it is
    malformed. *)
Lemma build_mcq_raise (chunks : list Chunk) (i : nat) (d : McqData) :
  chunks ≠ [] →
  (∃ e, MCQGenerationAgent.build_mcq chunks i d = Raise e)
  ↔ malformed_item chunks d = true.
Proof.
  intros Hne. destruct (head chunks) as [c0|] eqn:Hhead; [|by destruct chunks].
  pose proof (source_chunk_resolution chunks c0
                (default 0%Z (md_chunk_index d)) Hhead) as (_ & _ & Hlow & Hok).
  cbn zeta in Hlow, Hok.
  unfold MCQGenerationAgent.build_mcq, malformed_item.
  destruct (Z.ltb_spec (default 0%Z (md_chunk_index d))
              (- Z.of_nat (length chunks))) as [Hk|Hk].
  - rewrite Hlow by done. cbn [rbind].
    destruct (md_chunk_index d) as [k|];
      [change (default 0%Z (Some k)) with k in Hk
      |change (default 0%Z None) with 0%Z in Hk; lia].
    apply Z.ltb_lt in Hk. rewrite Hk, orb_true_r. split; eauto.
  - destruct (Hok Hk) as [c ->]. cbn [rbind].
    assert ((match md_chunk_index d with
             | Some k => (k <? - Z.of_nat (length chunks))%Z
             | None => false
             end) = false) as ->.
    { destruct (md_chunk_index d) as [k|]; [|done].
      change (default 0%Z (Some k)) with k in Hk. by apply Z.ltb_ge. }
    rewrite orb_false_r.
    destruct (md_options d) as [opts|]; cbn [getitem rbind];
      [|rewrite orb_true_r; split; eauto].
    destruct (md_correct_answer d) as [ca|] eqn:Hca; cbn [absent];
      [|rewrite orb_true_r; cbn [orb];
        split; [done|intros _];
        destruct (MCQGenerationAgent.build_options d opts); cbn [rbind];
        [destruct (md_question d); cbn [getitem rbind]|]; eauto].
    assert (md_correct_answer d ≠ None) as Hsome by congruence.
    pose proof (build_options_raise d opts Hsome) as Hopts.
    destruct (MCQGenerationAgent.build_options d opts) as [os|e];
      cbn [rbind].
    + destruct (existsb malformed_option opts);
        [destruct Hopts as [_ Hopts]; by destruct Hopts as [e [=]]|].
      unfold DifficultyLevel_call.
      destruct (md_question d) as [q|], (md_explanation d) as [ex|],
        (md_difficulty d) as [df|];
        cbn [getitem rbind absent orb default];
        try (split; [done|eauto]).
      * change (id df) with df.
        destruct (DifficultyLevel_of_value df); cbn [rbind absent];
          (split; [first [by intros [e [=]] | done] | first [done | eauto]]).
      * cbn. split; [by intros [e [=]]|done].
    + destruct Hopts as [Hopts _]. rewrite Hopts by eauto.
      rewrite !orb_true_r. cbn [orb]. split; eauto.
Qed.

Lemma build_mcq_inv (chunks : list Chunk) (i : nat) (d : McqData) (mcq : MCQ) :
  MCQGenerationAgent.build_mcq chunks i d = Ok mcq →
  ∃ source opts,
    (if (default 0%Z (md_chunk_index d) <? Z.of_nat (length chunks))%Z
     then list_getitem chunks (default 0%Z (md_chunk_index d))
     else list_getitem chunks 0) = Ok source
    ∧ md_options d = Some opts
    ∧ MCQGenerationAgent.build_options d opts = Ok (options mcq)
    ∧ md_question d = Some (question mcq)
    ∧ md_correct_answer d = Some (correct_answer mcq)
    ∧ md_explanation d = Some (explanation mcq)
    ∧ chunk_id mcq = ch_chunk_id source
    ∧ source_filename mcq = ch_source source
    ∧ context_snippet mcq = String.app (str_take 200 (ch_text source)) "..."
    ∧ metadata mcq = {[ "generation_order" := Z.of_nat i ]}.
Proof.
  unfold MCQGenerationAgent.build_mcq.
  destruct (if (default 0%Z (md_chunk_index d) <? Z.of_nat (length chunks))%Z
            then _ else _) as [source|]; cbn [rbind]; [|done].
  destruct (md_options d) as [opts|]; cbn [getitem rbind]; [|done].
  destruct (MCQGenerationAgent.build_options d opts) as [os|] eqn:Hos;
    cbn [rbind]; [|done].
  destruct (md_question d) as [q|]; cbn [getitem rbind]; [|done].
  destruct (md_correct_answer d) as [ca|]; cbn [getitem rbind]; [|done].
  destruct (md_explanation d) as [ex|]; cbn [getitem rbind]; [|done].
  destruct (DifficultyLevel_call _) as [df|]; cbn [rbind]; [|done].
  intros [= <-]. exists source, opts. cbn. split_and!; done.
Qed.

(** A reference that is missing or at least [len(context_chunks)] resolves to
    the first fragment. *)
Lemma chunk_index_fallback (chunks : list Chunk) (c0 : Chunk) (i : nat)
    (d : McqData) (mcq : MCQ) :
  head chunks = Some c0 →
  md_chunk_index d = None
  ∨ (∃ k, md_chunk_index d = Some k ∧ (Z.of_nat (length chunks) ≤ k)%Z) →
  MCQGenerationAgent.build_mcq chunks i d = Ok mcq →
  chunk_id mcq = ch_chunk_id c0
  ∧ source_filename mcq = ch_source c0
  ∧ context_snippet mcq = String.app (str_take 200 (ch_text c0)) "...".
Proof.
  intros Hhead Hidx Hbuild.
  apply build_mcq_inv in Hbuild
    as (source & opts & Hsource & _ & _ & _ & _ & _ & -> & -> & -> & _).
  pose proof (source_chunk_resolution chunks c0
                (default 0%Z (md_chunk_index d)) Hhead) as (Hhigh & Hzero & _).
  cbn zeta in Hhigh, Hzero.
  assert (Ok source = Ok c0) as [= ->]; [|done].
  rewrite <- Hsource. destruct Hidx as [Hnone|(k & Hsome & Hk)].
  - apply Hzero. by rewrite Hnone.
  - apply Hhigh. by rewrite Hsome.
Qed.

Lemma build_mcqs_raise (chunks : list Chunk) (items : list McqData) :
  ∀ i acc k d,
    items !! k = Some d →
    (∃ e, MCQGenerationAgent.build_mcq chunks (i + k) d = Raise e) →
    ∃ e, MCQGenerationAgent.build_mcqs chunks i items acc = Raise e.
Proof.
  induction items as [|d0 items IH]; intros i acc k d Hk Hraise; [done|].
  cbn [MCQGenerationAgent.build_mcqs].
  destruct k as [|k]; cbn in Hk.
  - injection Hk as ->. replace (i + 0)%nat with i in Hraise by lia.
    destruct Hraise as [e ->]. cbn. eauto.
  - destruct (MCQGenerationAgent.build_mcq chunks i d0); cbn [rbind]; [|eauto].
    apply (IH (S i) _ k d); [done|].
    by replace (S i + k)%nat with (i + S k)%nat by lia.
Qed.

Lemma build_mcqs_inv (chunks : list Chunk) (items : list McqData) :
  ∀ i acc ms,
    MCQGenerationAgent.build_mcqs chunks i items acc = Ok ms →
    ∃ built, ms = acc ++ built
      ∧ length built = length items
      ∧ ∀ k m, built !! k = Some m →
          ∃ d, items !! k = Some d
             ∧ MCQGenerationAgent.build_mcq chunks (i + k) d = Ok m.
Proof.
  induction items as [|d0 items IH]; intros i acc ms; cbn.
  - intros [= <-]. exists []. by rewrite app_nil_r.
  - destruct (MCQGenerationAgent.build_mcq chunks i d0) as [m0|] eqn:E0;
      cbn [rbind]; [|done].
    intros Hrest. apply IH in Hrest as (built & -> & Hlen & Hbuilt).
    exists (m0 :: built). split_and!.
    + by rewrite <- app_assoc.
    + cbn. by rewrite Hlen.
    + intros [|k] m Hm; cbn in Hm.
      * injection Hm as <-. exists d0.
        by replace (i + 0)%nat with i by lia.
      * destruct (Hbuilt k m Hm) as (d & Hd & Hbuild). exists d.
        by replace (i + S k)%nat with (S i + k)%nat by lia.
Qed.

(** The generation call, with its [try] and [except] written out. *)
Lemma generate_mcqs_spec (chunks : list Chunk) (num : Z)
    (difficulty : option string) (st : State World) :
  MCQGenerationAgent.generate_mcqs svc chunks num difficulty st =
  match chunks with
  | [] => (Ok [], st)
  | _ :: _ =>
      let '(r, w) := generation_service svc chunks num difficulty (world st) in
      match r with
      | ServiceFailed =>
          (Ok [], mkState w (console st ++ [LErrorGenerating ServiceError]))
      | Malformed =>
          (Ok [], mkState w (console st ++ [LErrorGenerating JSONDecodeError]))
      | Parsed items =>
          match MCQGenerationAgent.build_mcqs chunks 0 items [] with
          | Ok ms => (Ok ms, mkState w (console st))
          | Raise e => (Ok [], mkState w (console st ++ [LErrorGenerating e]))
          end
      end
  end.
Proof.
  destruct chunks as [|c chunks]; [done|].
  unfold MCQGenerationAgent.generate_mcqs, try_except, bind, call, lift,
    print, ret.
  destruct (generation_service svc (c :: chunks) num difficulty (world st))
    as [[| |items] w]; try done.
Qed.

(** C6. The generation call always returns a list and never raises.  With a
    non-empty context, a failure of the service, an answer that does not
    parse, or a malformed item anywhere in the answer makes the whole call
    return the empty list.  And when generation returns the empty list, the
    orchestrator returns a result with empty [mcqs], [critiques] and
    [validations]; the run ends in the state generation left, with only the
    two lines "Generated 0" and "generation failed" printed after it, so the
    critique and validation stages are not entered. *)
Theorem generation_fails_soft :
  (∀ (chunks : list Chunk) (num : Z) (difficulty : option string)
     (st : State World),
     ∃ ms st',
       MCQGenerationAgent.generate_mcqs svc chunks num difficulty st
       = (Ok ms, st')
       ∧ (chunks ≠ [] →
          match (generation_service svc chunks num difficulty (world st)).1 with
          | ServiceFailed | Malformed => ms = []
          | Parsed items =>
              (∃ d, d ∈ items ∧ malformed_item chunks d = true) → ms = []
          end))
  ∧ (∀ (query : string) (num : Z) (difficulty : option string) (top_k : Z)
       (st : State World) (chunks : list Chunk) (w : World)
       (st' : State World),
       chunks ≠ [] →
       retrieval_service svc query top_k (world st) = (Ok chunks, w) →
       MCQGenerationAgent.generate_mcqs svc chunks num difficulty
         (mkState w (console st ++ [LRetrieving query;
                                    LRetrieved (length chunks);
                                    LGenerating num]))
       = (Ok [], st') →
       ∃ r,
         MCQOrchestrator.generate_mcqs svc query num difficulty top_k st
         = (Ok r, mkState (world st')
                    (console st' ++ [LGenerated 0; LGenerationFailed]))
         ∧ mcqs r = [] ∧ critiques r = [] ∧ validations r = []
         ∧ valid_mcqs r = [] ∧ invalid_mcqs r = []).
Proof.
  split.
  - intros chunks num difficulty st. rewrite generate_mcqs_spec.
    destruct chunks as [|c chunks]; [by eexists _, _|].
    destruct (generation_service svc (c :: chunks) num difficulty (world st))
      as [[| |items] w]; cbn [fst]; try by eexists _, _.
    destruct (MCQGenerationAgent.build_mcqs (c :: chunks) 0 items [])
      as [ms|e] eqn:Hbuild; [|by eexists _, _].
    eexists _, _. split; [reflexivity|].
    intros Hne (d & Hd & Hbad).
    apply list_elem_of_lookup in Hd as [k Hk].
    destruct (build_mcqs_raise (c :: chunks) items 0 [] k d Hk) as [e He].
    { by apply build_mcq_raise. }
    congruence.
  - intros query num difficulty top_k st chunks w st' Hne Hretrieve Hgen.
    unfold MCQOrchestrator.generate_mcqs, MCQOrchestrator.retrieve_context,
      bind, print, ret.
    cbn [world console]. rewrite Hretrieve.
    destruct chunks as [|c chunks]; [done|].
    cbn [world console]. rewrite <- !app_assoc. cbn [app].
    rewrite Hgen. cbn [world console length].
    rewrite <- !app_assoc. cbn [app].
    eexists. split; [reflexivity|]. by cbn.
Qed.

End Generation.

Lemma generation_fails_soft_witness :
  ∃ r,
    MCQOrchestrator.generate_mcqs
      (sample_services sample_chunks (Parsed [sample_item (Some (-3)%Z)])
         Malformed)
      "capitals" 1 None 5 initial_state
    = (Ok r, mkState tt
               [LRetrieving "capitals"; LRetrieved 2; LGenerating 1;
                LErrorGenerating IndexError; LGenerated 0; LGenerationFailed])
    ∧ mcqs r = [] ∧ critiques r = [] ∧ validations r = [].
Proof.
  destruct (generation_fails_soft
              (sample_services sample_chunks
                 (Parsed [sample_item (Some (-3)%Z)]) Malformed))
    as [_ Hrun].
  destruct (Hrun "capitals" 1%Z None 5%Z initial_state sample_chunks tt
              (mkState tt [LRetrieving "capitals"; LRetrieved 2; LGenerating 1;
                           LErrorGenerating IndexError]))
    as (r & Hr & Hm & Hc & Hv & _); [done|reflexivity|reflexivity|].
  exists r. by split_and!.
Defined.

(** C8. A fragment reference below [-len(context_chunks)] does not fall back
    to the first fragment: with two fragments and [chunk_index = -3] the
    lookup raises [IndexError] and the whole generation call returns the
    empty list.  The reference [-1] selects the last fragment, and the
    reference [5] the first one. *)
Theorem chunk_index_below_range :
  MCQGenerationAgent.generate_mcqs
    (sample_services sample_chunks (Parsed [sample_item (Some (-3)%Z)])
       Malformed)
    sample_chunks 1 None initial_state
  = (Ok [], mkState tt [LErrorGenerating IndexError])
  ∧ (∃ mcq,
       MCQGenerationAgent.build_mcq sample_chunks 0 (sample_item (Some (-1)%Z))
       = Ok mcq
       ∧ chunk_id mcq = "1" ∧ source_filename mcq = "italy.txt")
  ∧ (∃ mcq,
       MCQGenerationAgent.build_mcq sample_chunks 0 (sample_item (Some 5%Z))
       = Ok mcq
       ∧ chunk_id mcq = "0" ∧ source_filename mcq = "france.txt").
Proof.
  split_and!.
  - reflexivity.
  - eexists. split; [reflexivity|]. by cbn.
  - eexists. split; [reflexivity|]. by cbn.
Qed.

(** C9, as the code has it.  In an MCQ built by the generation stage an
    option is flagged correct exactly when its label equals
    [correct_answer]: the flag is derived at creation.  The validation stage
    does not read [correct_answer]: its result for an MCQ is the same
    whatever the declared answer is. *)
Theorem correct_flag_derived (chunks : list Chunk) (i : nat) (d : McqData)
    (mcq : MCQ) :
  MCQGenerationAgent.build_mcq chunks i d = Ok mcq →
  md_correct_answer d = Some (correct_answer mcq)
  ∧ (∀ opt, opt ∈ options mcq →
       (is_correct opt = true ↔ label opt = correct_answer mcq))
  ∧ (∀ cs j answer,
       MCQValidationAgent.validate_mcq cs j (with_correct_answer answer mcq)
       = MCQValidationAgent.validate_mcq cs j mcq).
Proof.
  intros Hbuild.
  apply build_mcq_inv in Hbuild
    as (source & opts & _ & _ & Hopts & _ & Hca & _).
  split_and!; [done| |reflexivity].
  intros opt Hopt.
  destruct (build_options_inv d opts _ Hopts opt Hopt) as (ca & Hca' & ->).
  assert (ca = correct_answer mcq) as -> by congruence.
  apply String.eqb_eq.
Qed.

Lemma correct_flag_derived_witness :
  ∃ mcq,
    MCQGenerationAgent.build_mcq sample_chunks 0 (sample_item None) = Ok mcq
    ∧ ∀ opt, opt ∈ options mcq →
        (is_correct opt = true ↔ label opt = correct_answer mcq).
Proof.
  eexists. split; [reflexivity|].
  apply (correct_flag_derived sample_chunks 0 (sample_item None)).
  reflexivity.
Defined.

(** C9 as stated fails: an MCQ whose declared answer "B" differs from the
    label "A" of its flagged option is accepted by the validation stage and
    lands in [valid_mcqs]. *)
Lemma mismatched_answer_accepted :
  (∃ opt, opt ∈ options mismatched_mcq
        ∧ is_correct opt = true
        ∧ label opt ≠ correct_answer mismatched_mcq)
  ∧ (∃ v,
       MCQValidationAgent.validate_mcqs [mismatched_mcq] [sample_critique 9]
         sample_chunks !! 0%nat = Some v
       ∧ status v = VALID
       ∧ is_valid v = true)
  ∧ valid_mcqs
      (MCQGenerationResult_init "capitals" [mismatched_mcq] [sample_critique 9]
         (MCQValidationAgent.validate_mcqs [mismatched_mcq] [sample_critique 9]
            sample_chunks))
    = [mismatched_mcq].
Proof.
  split_and!.
  - exists (mkMCQOption "A" "Paris" true).
    split_and!; [set_solver|done|done].
  - eexists. split; [reflexivity|]. by vm_compute.
  - by vm_compute.
Qed.

(** ** The critique stage *)

Section Critique.
Context {World : Type} (svc : Services World).

(** The loop body, with its [try] and [except] written out. *)
Lemma critique_mcq_spec (chunks : list Chunk) (i : nat) (mcq : MCQ)
    (st : State World) :
  MCQCriticAgent.critique_mcq svc chunks i mcq st =
  match MCQCriticAgent.find_source_chunk chunks mcq with
  | None => (Ok (MCQCriticAgent.no_context_critique i mcq), st)
  | Some source =>
      let '(r, w) := critic_service svc mcq source (world st) in
      let failed e :=
        (Ok (MCQCriticAgent.fallback_critique i mcq),
         mkState w (console st ++ [LErrorCritiquing i e])) in
      match r with
      | ServiceFailed => failed ServiceError
      | Malformed => failed JSONDecodeError
      | Parsed d =>
          match MCQCriticAgent.critique_of_data i d with
          | Ok c => (Ok c, mkState w (console st))
          | Raise e => failed e
          end
      end
  end.
Proof.
  unfold MCQCriticAgent.critique_mcq.
  destruct (MCQCriticAgent.find_source_chunk chunks mcq) as [source|]; [|done].
  unfold try_except, MCQCriticAgent.request_critique, bind, call, lift, print,
    ret.
  by destruct (critic_service svc mcq source (world st)) as [[| |d] w].
Qed.

Lemma critique_of_data_inv (i : nat) (d : CritiqueData) (c : CritiqueResult) :
  MCQCriticAgent.critique_of_data i d = Ok c →
  ∃ assessment,
    DifficultyLevel_call (default "medium" (cd_difficulty_assessment d))
    = Ok assessment
    ∧ c = CritiqueResult_init i
            (default 5%float (cd_clarity_score d))
            (default 5%float (cd_correctness_score d))
            (default 5%float (cd_grounding_score d))
            assessment
            (default [] (cd_issues d)) (default [] (cd_suggestions d)).
Proof.
  unfold MCQCriticAgent.critique_of_data.
  destruct (DifficultyLevel_call _) as [a|]; cbn [rbind]; [|done].
  intros [= <-]. by exists a.
Qed.

(** The loop body never raises and numbers its critique [i]. *)
Lemma critique_mcq_ok (chunks : list Chunk) (i : nat) (mcq : MCQ)
    (st : State World) :
  ∃ c st', MCQCriticAgent.critique_mcq svc chunks i mcq st = (Ok c, st')
         ∧ c_mcq_index c = i.
Proof.
  rewrite critique_mcq_spec.
  destruct (MCQCriticAgent.find_source_chunk chunks mcq) as [source|];
    [|by eexists _, _].
  destruct (critic_service svc mcq source (world st)) as [[| |d] w];
    try by eexists _, _.
  destruct (MCQCriticAgent.critique_of_data i d) as [c|e] eqn:Hd;
    [|by eexists _, _].
  apply critique_of_data_inv in Hd as (a & _ & ->). by eexists _, _.
Qed.

(** The loop returns one critique per MCQ, each the result of the loop body
    run in the state the earlier iterations left. *)
Lemma critique_loop_spec (chunks : list Chunk) (l : list MCQ) :
  ∀ (i : nat) (acc : list CritiqueResult) (st : State World),
  ∃ cs st',
    MCQCriticAgent.critique_loop svc chunks i l acc st = (Ok (acc ++ cs), st')
    ∧ length cs = length l
    ∧ ∀ k mcq, l !! k = Some mcq →
        ∃ c s', cs !! k = Some c
          ∧ MCQCriticAgent.critique_mcq svc chunks (i + k) mcq
              (MCQCriticAgent.critique_loop svc chunks i (take k l) acc st).2
            = (Ok c, s').
Proof.
  induction l as [|m l IH]; intros i acc st.
  - exists [], st. rewrite app_nil_r. by split_and!.
  - destruct (critique_mcq_ok chunks i m st) as (c0 & st1 & Hc0 & _).
    destruct (IH (S i) (acc ++ [c0]) st1) as (cs & st' & Hloop & Hlen & Hcs).
    exists (c0 :: cs), st'. split_and!.
    + cbn [MCQCriticAgent.critique_loop]. unfold bind at 1.
      rewrite Hc0, Hloop. by rewrite <- app_assoc.
    + cbn. by rewrite Hlen.
    + intros [|k] mcq Hk; cbn in Hk.
      * injection Hk as ->. exists c0, st1. split; [done|].
        replace (i + 0)%nat with i by lia. exact Hc0.
      * destruct (Hcs k mcq Hk) as (c & s' & Hc & Hbody).
        exists c, s'. split; [done|].
        cbn [take MCQCriticAgent.critique_loop]. unfold bind at 1.
        rewrite Hc0. replace (i + S k)%nat with (S i + k)%nat by lia.
        exact Hbody.
Qed.

Lemma critique_mcqs_spec (mcqs : list MCQ) (chunks : list Chunk)
    (st : State World) :
  ∃ cs st',
    MCQCriticAgent.critique_mcqs svc mcqs chunks st = (Ok cs, st')
    ∧ length cs = length mcqs
    ∧ ∀ i mcq, mcqs !! i = Some mcq →
        ∃ c s', cs !! i = Some c
          ∧ MCQCriticAgent.critique_mcq svc chunks i mcq
              (state_before_critique svc mcqs chunks i st)
            = (Ok c, s').
Proof.
  destruct (critique_loop_spec chunks mcqs 0 [] st)
    as (cs & st' & Hloop & Hlen & Hcs).
  by exists cs, st'.
Qed.

(** The loop on a list with one more MCQ at its end is the loop on the
    list followed by the loop body on the last MCQ. *)
Lemma critique_loop_snoc (chunks : list Chunk) (l : list MCQ) (m : MCQ) :
  ∀ (i : nat) (acc : list CritiqueResult) (st : State World),
    MCQCriticAgent.critique_loop svc chunks i (l ++ [m]) acc st
    = match MCQCriticAgent.critique_loop svc chunks i l acc st with
      | (Ok cs, st1) =>
          match MCQCriticAgent.critique_mcq svc chunks (i + length l) m st1 with
          | (Ok c, st2) => (Ok (cs ++ [c]), st2)
          | (Raise e, st2) => (Raise e, st2)
          end
      | (Raise e, st1) => (Raise e, st1)
      end.
Proof.
  induction l as [|x l IH]; intros i acc st.
  - cbn [app MCQCriticAgent.critique_loop length]. unfold bind, ret.
    replace (i + 0)%nat with i by lia.
    by destruct (MCQCriticAgent.critique_mcq svc chunks i m st) as [[c|e] st1].
  - cbn [app MCQCriticAgent.critique_loop length]. unfold bind.
    destruct (MCQCriticAgent.critique_mcq svc chunks i x st) as [[c|e] st1];
      [|done].
    rewrite IH. by replace (S i + length l)%nat with (i + S (length l))%nat by lia.
Qed.

(** The state in which the stage reaches [mcqs[i+1]] is the state the loop
    body left for [mcqs[i]]. *)
Lemma state_before_critique_step (mcqs : list MCQ) (chunks : list Chunk)
    (i : nat) (mcq : MCQ) (st : State World) :
  mcqs !! i = Some mcq →
  state_before_critique svc mcqs chunks (S i) st
  = (MCQCriticAgent.critique_mcq svc chunks i mcq
       (state_before_critique svc mcqs chunks i st)).2.
Proof.
  intros Hi. unfold state_before_critique, MCQCriticAgent.critique_mcqs.
  rewrite (take_S_r _ _ _ Hi), critique_loop_snoc.
  destruct (critique_loop_spec chunks (take i mcqs) 0 [] st)
    as (cs & st1 & Hloop & _).
  rewrite Hloop. cbn [snd app Nat.add].
  rewrite length_take_le by (apply lookup_lt_Some in Hi; lia).
  destruct (critique_mcq_ok chunks i mcq st1) as (c & st2 & Hc & _).
  by rewrite Hc.
Qed.

(** C7. The critique stage never raises and returns one critique per MCQ, in
    order, the critique at index [i] carrying [mcq_index = i]; it ends in the
    state its last iteration left.  Every MCQ that has a source fragment gets
    one request to the service, made in the world the requests for the MCQs
    before it left, whether or not those failed.  When the request for
    [mcqs[i]] fails (the service fails, its answer does not parse, or the
    answer cannot be turned into a critique), that MCQ gets the fallback
    critique: 7.0 on the three axes, hence [overall_score] 7.0, the
    difficulty the MCQ declares, and the issue "Could not complete full
    critique"; one error line is printed and the stage goes on with the next
    MCQ.  When the answer is turned into a critique, that critique is the one
    returned at index [i], so a failure changes the critique of no other MCQ.
    An MCQ without a source fragment gets the critique made without context
    and leaves the state as it is. *)
Theorem critique_failure_isolated (mcqs : list MCQ) (chunks : list Chunk)
    (st : State World) :
  ∃ cs st',
    MCQCriticAgent.critique_mcqs svc mcqs chunks st = (Ok cs, st')
    ∧ length cs = length mcqs
    ∧ st' = state_before_critique svc mcqs chunks (length mcqs) st
    ∧ ∀ i mcq, mcqs !! i = Some mcq →
        let before := state_before_critique svc mcqs chunks i st in
        let after := state_before_critique svc mcqs chunks (S i) st in
        ∃ c, cs !! i = Some c
          ∧ c_mcq_index c = i
          ∧ (MCQCriticAgent.find_source_chunk chunks mcq = None →
             c = MCQCriticAgent.no_context_critique i mcq ∧ after = before)
          ∧ ∀ source,
              MCQCriticAgent.find_source_chunk chunks mcq = Some source →
              let answer :=
                (critic_service svc mcq source (world before)).1 in
              world after = (critic_service svc mcq source (world before)).2
              ∧ (answer = ServiceFailed
                 ∨ answer = Malformed
                 ∨ (∃ d e, answer = Parsed d
                         ∧ MCQCriticAgent.critique_of_data i d = Raise e) →
                 c = MCQCriticAgent.fallback_critique i mcq
                 ∧ clarity_score c = 7%float
                 ∧ correctness_score c = 7%float
                 ∧ grounding_score c = 7%float
                 ∧ overall_score c = 7%float
                 ∧ difficulty_assessment c = difficulty mcq
                 ∧ issues c = ["Could not complete full critique"]
                 ∧ ∃ e, console after = console before ++ [LErrorCritiquing i e])
              ∧ (∀ d parsed,
                   answer = Parsed d →
                   MCQCriticAgent.critique_of_data i d = Ok parsed →
                   c = parsed ∧ console after = console before).
Proof.
  destruct (critique_mcqs_spec mcqs chunks st) as (cs & st' & Hrun & Hlen & Hcs).
  exists cs, st'. split_and!; try done.
  { unfold state_before_critique. rewrite take_ge by done. by rewrite Hrun. }
  intros i mcq Hi before after.
  destruct (Hcs i mcq Hi) as (c & s' & Hc & Hbody). fold before in Hbody.
  assert (after = s') as ->.
  { unfold after. rewrite (state_before_critique_step mcqs chunks i mcq st Hi).
    fold before. by rewrite Hbody. }
  destruct (critique_mcq_ok chunks i mcq before) as (c' & s'' & Hbody' & Hidx).
  assert (c' = c) as -> by congruence.
  exists c. rewrite critique_mcq_spec in Hbody.
  split_and!; [done|done| |].
  - intros Hnone. rewrite Hnone in Hbody. by injection Hbody as <- <-.
  - intros source Hsource answer. rewrite Hsource in Hbody. subst answer.
    destruct (critic_service svc mcq source (world before)) as [r w].
    cbn [fst snd]. cbn zeta in Hbody.
    destruct r as [| |d];
      [| |destruct (MCQCriticAgent.critique_of_data i d) as [c1|e] eqn:Hd];
      injection Hbody as <- <-; cbn [world console].
    + split_and!; [done| |done]. intros _. split_and!; try done. by eexists.
    + split_and!; [done| |done]. intros _. split_and!; try done. by eexists.
    + split_and!; [done| |].
      * intros [Hr|[Hr|(d' & e & Hr & He)]]; try done.
        injection Hr as <-. congruence.
      * intros d' parsed [= <-] Hparsed. split; [congruence|done].
    + split_and!; [done| |].
      * intros _. split_and!; try done. by eexists.
      * intros d' parsed [= <-] Hparsed. congruence.
Qed.

(** C10. When the answer for [mcqs[i]] parses and is turned into a critique,
    a score that the answer omits is 5.0 and an omitted difficulty assessment
    is [MEDIUM]: not the 7.0 of the fallback, so with the three scores
    omitted [overall_score] is 5.0.  With [grounding_score] omitted the
    critique has [grounding_score = 5.0], for which the validation stage sets
    [is_context_grounded] to false, records the low score, and leaves
    [has_hallucination] false. *)
Theorem parsed_critique_defaults (mcqs : list MCQ) (chunks : list Chunk)
    (st : State World) :
  ∃ cs st',
    MCQCriticAgent.critique_mcqs svc mcqs chunks st = (Ok cs, st')
    ∧ ∀ i mcq source d assessment,
        mcqs !! i = Some mcq →
        MCQCriticAgent.find_source_chunk chunks mcq = Some source →
        (critic_service svc mcq source
           (world (state_before_critique svc mcqs chunks i st))).1 = Parsed d →
        DifficultyLevel_call (default "medium" (cd_difficulty_assessment d))
        = Ok assessment →
        ∃ c, cs !! i = Some c
          ∧ clarity_score c = default 5%float (cd_clarity_score d)
          ∧ correctness_score c = default 5%float (cd_correctness_score d)
          ∧ grounding_score c = default 5%float (cd_grounding_score d)
          ∧ difficulty_assessment c = assessment
          ∧ (cd_difficulty_assessment d = None → assessment = MEDIUM)
          ∧ (cd_clarity_score d = None → cd_correctness_score d = None →
             cd_grounding_score d = None → overall_score c = 5%float)
          ∧ (cd_grounding_score d = None →
             grounding_score c = 5%float
             ∧ ∃ v, MCQValidationAgent.validate_mcqs mcqs cs chunks !! i = Some v
                  ∧ is_context_grounded v = false
                  ∧ has_hallucination v = false
                  ∧ LowGroundingScore 5 ∈ validation_errors v).
Proof.
  destruct (critique_mcqs_spec mcqs chunks st) as (cs & st' & Hrun & Hlen & Hcs).
  exists cs, st'. split; [done|].
  intros i mcq source d assessment Hi Hsource Hanswer Hlevel.
  destruct (Hcs i mcq Hi) as (c & s' & Hc & Hbody).
  rewrite critique_mcq_spec, Hsource in Hbody.
  destruct (critic_service svc mcq source _) as [r w].
  cbn [fst] in Hanswer. subst r. cbn zeta in Hbody.
  unfold MCQCriticAgent.critique_of_data in Hbody.
  rewrite Hlevel in Hbody. cbn [rbind] in Hbody. injection Hbody as <- _.
  eexists. split; [exact Hc|].
  cbn [clarity_score correctness_score grounding_score difficulty_assessment
       overall_score CritiqueResult_init].
  split_and!; try reflexivity.
  - intros Hnone. rewrite Hnone in Hlevel. by injection Hlevel as <-.
  - by intros -> -> ->.
  - intros Hnone. rewrite Hnone. split; [reflexivity|].
    eexists. split; [by apply validate_mcqs_lookup|].
    rewrite validate_mcq_spec, Hc.
    cbn [is_context_grounded has_hallucination validation_errors
         grounding_score CritiqueResult_init].
    rewrite Hnone. split_and!; [done|done|].
    rewrite !elem_of_app. right. right. apply list_elem_of_here.
Qed.

End Critique.

Lemma critique_failure_isolated_witness :
  ∃ cs c0 c1 c2,
    (MCQCriticAgent.critique_mcqs alternating_critic
       [sample_mcq; sample_mcq; sample_mcq] sample_chunks (mkState 0%nat [])).1
    = Ok cs
    ∧ cs !! 0%nat = Some c0 ∧ cs !! 1%nat = Some c1 ∧ cs !! 2%nat = Some c2
    ∧ c0 = MCQCriticAgent.fallback_critique 0 sample_mcq
    ∧ clarity_score c1 = 8%float ∧ grounding_score c1 = 5%float
    ∧ c2 = MCQCriticAgent.fallback_critique 2 sample_mcq.
Proof.
  destruct (critique_failure_isolated alternating_critic
              [sample_mcq; sample_mcq; sample_mcq] sample_chunks
              (mkState 0%nat []))
    as (cs & st' & Hrun & _ & _ & Hcs).
  pose proof (Hcs 0%nat sample_mcq eq_refl) as H0.
  pose proof (Hcs 1%nat sample_mcq eq_refl) as H1.
  pose proof (Hcs 2%nat sample_mcq eq_refl) as H2.
  cbn zeta in H0, H1, H2.
  destruct H0 as (c0 & Hc0 & _ & _ & H0).
  destruct H1 as (c1 & Hc1 & _ & _ & H1).
  destruct H2 as (c2 & Hc2 & _ & _ & H2).
  destruct (H0 (mkChunk "Paris is the capital of France." 0.875 "0"
                  "france.txt") eq_refl) as (_ & Hfail0 & _).
  destruct (H1 (mkChunk "Paris is the capital of France." 0.875 "0"
                  "france.txt") eq_refl) as (_ & _ & Hparsed1).
  destruct (H2 (mkChunk "Paris is the capital of France." 0.875 "0"
                  "france.txt") eq_refl) as (_ & Hfail2 & _).
  destruct Hfail0 as (E0 & _); [left; by vm_compute|].
  destruct (Hparsed1 partial_critique_data
              (CritiqueResult_init 1 8 9 5 MEDIUM [] []))
    as (E1 & _); [by vm_compute|by vm_compute|].
  destruct Hfail2 as (E2 & _); [left; by vm_compute|].
  exists cs, c0, c1, c2. rewrite Hrun.
  split_and!; try done; rewrite E1; by vm_compute.
Defined.

Lemma parsed_critique_defaults_witness :
  ∃ cs c,
    (MCQCriticAgent.critique_mcqs
       (sample_services sample_chunks Malformed (Parsed partial_critique_data))
       [sample_mcq] sample_chunks initial_state).1 = Ok cs
    ∧ cs !! 0%nat = Some c
    ∧ grounding_score c = 5%float
    ∧ difficulty_assessment c = MEDIUM.
Proof.
  destruct (parsed_critique_defaults
              (sample_services sample_chunks Malformed
                 (Parsed partial_critique_data))
              [sample_mcq] sample_chunks initial_state)
    as (cs & st' & Hrun & Hcs).
  destruct (Hcs 0%nat sample_mcq
              (mkChunk "Paris is the capital of France." 0.875 "0" "france.txt")
              partial_critique_data MEDIUM eq_refl eq_refl eq_refl eq_refl)
    as (c & Hc & _ & _ & Hg & Hlevel & _).
  exists cs, c. rewrite Hrun. by split_and!.
Defined.

(** ** The orchestrator *)

Section Batch.
Context {World : Type} (svc : Services World).

Lemma never_raises_ret {A} (a : A) : never_raises (ret (World := World) a).
Proof. intros st. by eexists _, _. Qed.

Lemma never_raises_print (l : Line) : never_raises (print (World := World) l).
Proof. intros st. by eexists _, _. Qed.

Lemma never_raises_bind {A B} (m : M World A) (k : A → M World B) :
  never_raises m → (∀ a, never_raises (k a)) → never_raises (bind m k).
Proof.
  intros Hm Hk st. destruct (Hm st) as (a & st1 & Ha).
  destruct (Hk a st1) as (b & st2 & Hb).
  exists b, st2. unfold bind. by rewrite Ha.
Qed.

Lemma bind_ok {A B} (m : M World A) (k : A → M World B) st a st1 :
  m st = (Ok a, st1) → bind m k st = k a st1.
Proof. intros Hm. unfold bind. by rewrite Hm. Qed.

Lemma never_raises_generation (chunks : list Chunk) (num : Z)
    (difficulty : option string) :
  never_raises (MCQGenerationAgent.generate_mcqs svc chunks num difficulty).
Proof.
  intros st. rewrite generate_mcqs_spec.
  destruct chunks as [|c chunks]; [by eexists _, _|].
  destruct (generation_service svc (c :: chunks) num difficulty (world st))
    as [[| |items] w]; try by eexists _, _.
  destruct (MCQGenerationAgent.build_mcqs (c :: chunks) 0 items []);
    by eexists _, _.
Qed.

Lemma never_raises_critique (mcqs : list MCQ) (chunks : list Chunk) :
  never_raises (MCQCriticAgent.critique_mcqs svc mcqs chunks).
Proof.
  intros st.
  destruct (critique_mcqs_spec svc mcqs chunks st) as (cs & st' & Hrun & _).
  by exists cs, st'.
Qed.

End Batch.

(** C1. A batch runs every query and then prints its totals; when a run
    raises, the batch raises with it.  The success rate is
    [total_valid / total_generated] (printed as a percentage) when
    [total_generated] is not 0: 3 valid MCQs out of 6 give 0.5.  When
    [total_generated] is 0 the division raises [ZeroDivisionError] and the
    batch call raises with it, after the three totals are printed, instead of
    reporting a rate of 0: so does a batch of one query for which retrieval
    finds no context. *)
Theorem batch_success_rate :
  (∀ (World : Type) (svc : Services World) (queries : list string) (num : Z)
     (difficulty : option string) (top_k : Z) (st : State World),
     match
       MCQOrchestrator.batch_loop svc (length queries) num difficulty top_k 1
         queries []
         (mkState (world st) (console st ++ [LBatchStart (length queries)]))
     with
     | (Ok results, st1) =>
         MCQOrchestrator.generate_mcqs_batch svc queries num difficulty top_k st
         = let totals := [LBatchQueries (length queries);
                          LBatchGenerated (total_generated results);
                          LBatchValid (total_valid results)] in
           if (total_generated results =? 0)%nat
           then (Raise ZeroDivisionError,
                 mkState (world st1) (console st1 ++ totals))
           else (Ok results,
                 mkState (world st1)
                   (console st1 ++ totals
                    ++ [LSuccessRate
                          (float_of_nat (total_valid results)
                           / float_of_nat (total_generated results)
                           * 100)%float]))
     | (Raise e, st1) =>
         MCQOrchestrator.generate_mcqs_batch svc queries num difficulty top_k st
         = (Raise e, st1)
     end)
  ∧ MCQOrchestrator.generate_mcqs_batch
      (sample_services [] Malformed Malformed) ["capitals"] 3 None 5
      initial_state
    = (Raise ZeroDivisionError,
       mkState tt [LBatchStart 1; LBatchQuery 1 1; LRetrieving "capitals";
                   LRetrieved 0; LNoContext; LBatchQueries 1;
                   LBatchGenerated 0; LBatchValid 0])
  ∧ truediv 3 6 = Ok 0.5%float.
Proof.
  split_and!; [|reflexivity|reflexivity].
  intros World svc queries num difficulty top_k st.
  destruct (MCQOrchestrator.batch_loop svc (length queries) num difficulty
              top_k 1 queries [] _) as [[results|e] st1] eqn:Hloop.
  - unfold MCQOrchestrator.generate_mcqs_batch.
    unfold bind at 1. unfold print at 1.
    rewrite (bind_ok _ _ _ _ _ Hloop).
    fold (total_valid results). fold (total_generated results).
    unfold bind, print, lift, ret, truediv. cbn [world console].
    destruct (total_generated results =? 0)%nat;
      cbn zeta; rewrite <- !app_assoc; reflexivity.
  - unfold MCQOrchestrator.generate_mcqs_batch.
    unfold bind at 1. unfold print at 1. unfold bind at 1.
    by rewrite Hloop.
Qed.

(** * Further properties of the code *)

(** ** Validation results *)

Lemma app_nil_3 {A} (l1 l2 l3 : list A) :
  l1 ++ l2 ++ l3 = [] → l1 = [] ∧ l2 = [] ∧ l3 = [].
Proof.
  intros H. apply app_eq_nil in H as [-> H].
  by apply app_eq_nil in H as [-> ->].
Qed.

(** Below 5.0 is below 6.0, for every float (a NaN is below neither). *)
Lemma below_5_below_6 (x : float) :
  PrimFloat.ltb x 5 = true → PrimFloat.ltb x 6 = true.
Proof.
  rewrite !ltb_spec.
  assert (Prim2SF 5 = S754_finite false 5629499534213120 (-50)) as ->
    by (vm_compute; reflexivity).
  assert (Prim2SF 6 = S754_finite false 6755399441055744 (-50)) as ->
    by (vm_compute; reflexivity).
  unfold SFltb, SFcompare.
  destruct (Prim2SF x) as [s|s| |s m e];
    try (intros; assumption || discriminate).
  destruct s; [auto|].
  destruct (Z.compare_spec e (-50)) as [->| |]; auto.
  rewrite !Pos.compare_cont_spec. unfold Pos.switch_Eq.
  destruct (Pos.compare_spec m 5629499534213120) as [Hm|Hm|Hm];
    try (intros Hd; discriminate Hd).
  intros _.
  assert (Hlt : (m < 6755399441055744)%positive).
  { apply (Pos.lt_trans _ _ _ Hm). vm_compute. reflexivity. }
  apply Pos.compare_lt_iff in Hlt. rewrite Hlt. reflexivity.
Qed.

(** The result for one MCQ is valid exactly when its status is [VALID], and
    exactly when no error was recorded. *)
Lemma validate_mcq_valid (cs : list CritiqueResult) (i : nat) (mcq : MCQ) :
  let v := MCQValidationAgent.validate_mcq cs i mcq in
  (is_valid v = true ↔ status v = VALID)
  ∧ (is_valid v = true ↔ validation_errors v = []).
Proof.
  cbn zeta. rewrite validate_mcq_spec. unfold is_valid.
  cbn [status is_context_grounded is_properly_formatted has_required_metadata
       has_hallucination validation_errors].
  destruct (format_errors mcq ++ metadata_errors mcq
            ++ grounding_errors (cs !! i)) as [|e errors] eqn:Herrors.
  - apply app_nil_3 in Herrors as (-> & -> & Hg).
    assert (match cs !! i with
            | Some c => negb (PrimFloat.ltb (grounding_score c) 6)
            | None => true
            end = true
            ∧ match cs !! i with
              | Some c => PrimFloat.ltb (grounding_score c) 5
              | None => false
              end = false) as [-> ->]; [|by cbn].
    destruct (cs !! i) as [c|]; [|done]. cbn in Hg.
    destruct (PrimFloat.ltb (grounding_score c) 6); [done|].
    by destruct (PrimFloat.ltb (grounding_score c) 5).
  - cbn [MCQValidationAgent.determine_status].
    assert (∀ b, status_eqb
                   match cs !! i with
                   | Some c =>
                       if PrimFloat.leb 7 (overall_score c)
                       then NEEDS_REVISION else INVALID
                   | None => INVALID
                   end VALID && b = false) as Hfalse.
    { intros b. destruct (cs !! i) as [c|]; [|done].
      by destruct (PrimFloat.leb 7 (overall_score c)). }
    rewrite <- !andb_assoc, Hfalse.
    split; split; try done.
    destruct (cs !! i) as [c|]; [|done].
    by destruct (PrimFloat.leb 7 (overall_score c)).
Qed.

(** X1. A validation result produced by the validation stage is valid
    exactly when its status is [VALID], and exactly when it records no
    error: the four flags never contradict the status. *)
Theorem valid_iff_status (ms : list MCQ) (cs : list CritiqueResult)
    (chunks : list Chunk) :
  Forall (λ v, (is_valid v = true ↔ status v = VALID)
               ∧ (is_valid v = true ↔ validation_errors v = []))
    (MCQValidationAgent.validate_mcqs ms cs chunks).
Proof.
  apply Forall_lookup. intros i v Hv.
  unfold MCQValidationAgent.validate_mcqs in Hv.
  rewrite list_lookup_imap in Hv.
  destruct (ms !! i) as [mcq|]; [|done]. injection Hv as <-.
  apply validate_mcq_valid.
Qed.

(** X2. The metadata check for the MCQ at index [i] passes exactly when
    [chunk_id] and [source_filename] are both non-empty; each empty one
    records its own error, and the error for a missing difficulty is never
    recorded, a difficulty level being always true. *)
Theorem metadata_check (ms : list MCQ) (cs : list CritiqueResult)
    (chunks : list Chunk) (i : nat) (mcq : MCQ) :
  ms !! i = Some mcq →
  ∃ v, MCQValidationAgent.validate_mcqs ms cs chunks !! i = Some v
    ∧ (has_required_metadata v = true ↔
         chunk_id mcq ≠ "" ∧ source_filename mcq ≠ "")
    ∧ (MissingChunkId ∈ validation_errors v ↔ chunk_id mcq = "")
    ∧ (MissingSourceFilename ∈ validation_errors v ↔ source_filename mcq = "")
    ∧ MissingDifficulty ∉ validation_errors v.
Proof.
  intros Hi. eexists. split; [by apply validate_mcqs_lookup|].
  rewrite validate_mcq_spec.
  cbn [has_required_metadata validation_errors].
  assert (∀ s, truthy s = true ↔ s ≠ "") as Htruthy.
  { intros s. by destruct s. }
  assert (∀ s, truthy s = false ↔ s = "") as Hfalsy.
  { intros s. by destruct s. }
  split_and!.
  - rewrite bool_decide_eq_true, <- !Htruthy. unfold metadata_errors.
    destruct (truthy (chunk_id mcq)), (truthy (source_filename mcq));
      cbn; split; try done; by intros [? ?].
  - rewrite <- Hfalsy, !elem_of_app. destruct (cs !! i); solve_errors.
  - rewrite <- Hfalsy, !elem_of_app. destruct (cs !! i); solve_errors.
  - rewrite !elem_of_app. destruct (cs !! i); solve_errors.
Qed.

Lemma metadata_check_witness :
  ∃ v, MCQValidationAgent.validate_mcqs [sample_mcq] [] (@nil Chunk) !! 0%nat
       = Some v
    ∧ has_required_metadata v = true.
Proof.
  destruct (metadata_check [sample_mcq] [] [] 0 sample_mcq eq_refl)
    as (v & Hv & Hmeta & _).
  exists v. split; [exact Hv|]. by apply Hmeta.
Defined.

(** X3. The hallucination flag is never raised alone: whenever a validation
    result has [has_hallucination], it also has [is_context_grounded] false,
    and both errors are recorded, the one with the low score before the one
    for the hallucination. *)
Theorem hallucination_implies_ungrounded (ms : list MCQ)
    (cs : list CritiqueResult) (chunks : list Chunk) :
  Forall (λ v, has_hallucination v = true →
               is_context_grounded v = false
               ∧ ∃ score before between,
                   validation_errors v =
                   before ++ [LowGroundingScore score] ++ between
                   ++ [PotentialHallucination])
    (MCQValidationAgent.validate_mcqs ms cs chunks).
Proof.
  apply Forall_lookup. intros i v Hv.
  unfold MCQValidationAgent.validate_mcqs in Hv.
  rewrite list_lookup_imap in Hv.
  destruct (ms !! i) as [mcq|]; [|done]. injection Hv as <-.
  rewrite validate_mcq_spec.
  cbn [is_context_grounded has_hallucination validation_errors].
  destruct (cs !! i) as [c|]; [|done].
  intros Hlow. pose proof (below_5_below_6 _ Hlow) as Hlow6.
  rewrite Hlow6. split; [done|].
  exists (grounding_score c), (format_errors mcq ++ metadata_errors mcq), [].
  unfold grounding_errors. rewrite Hlow, Hlow6. by rewrite <- !app_assoc.
Qed.

(** X4. Validation is positional: it returns one result per MCQ, the result
    at index [i] carrying [mcq_index = i]; it reads the critique at the same
    index only, so critiques beyond the MCQs and the context chunks have no
    effect on it. *)
Theorem validation_positional (ms : list MCQ) (cs : list CritiqueResult)
    (chunks : list Chunk) :
  length (MCQValidationAgent.validate_mcqs ms cs chunks) = length ms
  ∧ (∀ i v, MCQValidationAgent.validate_mcqs ms cs chunks !! i = Some v →
            v_mcq_index v = i)
  ∧ (∀ cs' chunks',
       take (length ms) cs' = take (length ms) cs →
       MCQValidationAgent.validate_mcqs ms cs' chunks'
       = MCQValidationAgent.validate_mcqs ms cs chunks).
Proof.
  unfold MCQValidationAgent.validate_mcqs. split_and!.
  - apply length_imap.
  - intros i v. rewrite list_lookup_imap.
    destruct (ms !! i) as [mcq|]; [|done]. cbn. intros [= <-].
    by rewrite validate_mcq_spec.
  - intros cs' _ Htake. apply list_eq. intros i.
    rewrite !list_lookup_imap.
    destruct (ms !! i) as [mcq|] eqn:Hi; [|done]. cbn.
    apply lookup_lt_Some in Hi.
    unfold MCQValidationAgent.validate_mcq.
    replace (cs' !! i) with (cs !! i); [done|].
    rewrite <- (lookup_take_lt cs (length ms) i) by done.
    rewrite <- (lookup_take_lt cs' (length ms) i) by done.
    by rewrite Htake.
Qed.

(** X5. A failed critique does not reject an MCQ: with the fallback critique
    at its index, the MCQ is taken as grounded and free of hallucination, its
    status is [VALID] when the structural and metadata checks pass and
    [NEEDS_REVISION] otherwise, never [INVALID]. *)
Theorem fallback_never_rejects (ms : list MCQ) (cs : list CritiqueResult)
    (chunks : list Chunk) (i : nat) (mcq : MCQ) :
  ms !! i = Some mcq →
  cs !! i = Some (MCQCriticAgent.fallback_critique i mcq) →
  ∃ v, MCQValidationAgent.validate_mcqs ms cs chunks !! i = Some v
    ∧ is_context_grounded v = true
    ∧ has_hallucination v = false
    ∧ status v ≠ INVALID
    ∧ (status v = VALID ↔
         is_properly_formatted v = true ∧ has_required_metadata v = true)
    ∧ (status v = NEEDS_REVISION ↔
         is_properly_formatted v = false ∨ has_required_metadata v = false).
Proof.
  intros Hi Hc. eexists. split; [by apply validate_mcqs_lookup|].
  rewrite validate_mcq_spec, Hc.
  cbn [status is_context_grounded is_properly_formatted has_required_metadata
       has_hallucination].
  change (grounding_errors (Some (MCQCriticAgent.fallback_critique i mcq)))
    with (@nil ValidationError).
  rewrite app_nil_r.
  split_and!; try reflexivity.
  - destruct (format_errors mcq ++ metadata_errors mcq); cbn; [done|].
    by change (PrimFloat.leb 7
                 (overall_score (MCQCriticAgent.fallback_critique i mcq)))
      with true.
  - rewrite !bool_decide_eq_true.
    destruct (format_errors mcq) as [|e1 l1], (metadata_errors mcq) as [|e2 l2];
      cbn; split; try done; by intros [? ?].
  - rewrite !bool_decide_eq_false.
    change (PrimFloat.leb 7
              (overall_score (MCQCriticAgent.fallback_critique i mcq)))
      with true.
    destruct (format_errors mcq) as [|e1 l1], (metadata_errors mcq) as [|e2 l2];
      cbn; split; try done; try (intros [?|?]; done); intros _; by (left + right).
Qed.

Lemma fallback_never_rejects_witness :
  ∃ v, MCQValidationAgent.validate_mcqs [sample_mcq]
         [MCQCriticAgent.fallback_critique 0 sample_mcq] sample_chunks !! 0%nat
       = Some v
    ∧ status v = VALID.
Proof.
  destruct (fallback_never_rejects [sample_mcq]
              [MCQCriticAgent.fallback_critique 0 sample_mcq] sample_chunks
              0 sample_mcq eq_refl eq_refl)
    as (v & Hv & _ & _ & _ & Hvalid & _).
  exists v. split; [exact Hv|].
  apply Hvalid. vm_compute in Hv. injection Hv as <-. by vm_compute.
Defined.

(** ** Critiques *)

Section MoreCritique.
Context {World : Type} (svc : Services World).

Lemma ensures_ret {A} (a : A) (P : A → Prop) :
  P a → ensures (ret (World := World) a) P.
Proof. intros Ha st. by eexists _, _. Qed.

Lemma ensures_print (l : Line) (P : unit → Prop) :
  P tt → ensures (print (World := World) l) P.
Proof. intros Htt st. by eexists _, _. Qed.

Lemma ensures_bind {A B} (m : M World A) (k : A → M World B)
    (P : A → Prop) (Q : B → Prop) :
  ensures m P → (∀ a, P a → ensures (k a) Q) → ensures (bind m k) Q.
Proof.
  intros Hm Hk st. destruct (Hm st) as (a & st1 & Ha & HP).
  destruct (Hk a HP st1) as (b & st2 & Hb & HQ).
  exists b, st2. unfold bind. by rewrite Ha.
Qed.

Lemma ensures_weaken {A} (m : M World A) (P Q : A → Prop) :
  ensures m P → (∀ a, P a → Q a) → ensures m Q.
Proof.
  intros Hm HPQ st. destruct (Hm st) as (a & st1 & Ha & HP).
  exists a, st1. auto.
Qed.

(** Every critique the loop body returns comes out of the constructor. *)
Lemma critique_mcq_constructed (chunks : list Chunk) (i : nat) (mcq : MCQ)
    (st st' : State World) (c : CritiqueResult) :
  MCQCriticAgent.critique_mcq svc chunks i mcq st = (Ok c, st') →
  ∃ clarity correctness grounding assessment notes advice,
    c = CritiqueResult_init i clarity correctness grounding assessment
          notes advice.
Proof.
  rewrite critique_mcq_spec.
  destruct (MCQCriticAgent.find_source_chunk chunks mcq) as [source|].
  - destruct (critic_service svc mcq source (world st)) as [[| |d] w];
      cbn zeta.
    + intros [= <- _]. by eexists _, _, _, _, _, _.
    + intros [= <- _]. by eexists _, _, _, _, _, _.
    + destruct (MCQCriticAgent.critique_of_data i d) as [c'|e] eqn:Hd.
      * intros [= <- _].
        apply critique_of_data_inv in Hd as (a & _ & ->).
        by eexists _, _, _, _, _, _.
      * intros [= <- _]. by eexists _, _, _, _, _, _.
  - intros [= <- _]. by eexists _, _, _, _, _, _.
Qed.

(** X6. Every critique the critique stage returns, whether parsed, fallback
    or built without context, has [mcq_index] equal to its position and
    [overall_score] equal to the mean of its three scores, computed as
    [(clarity + correctness + grounding) / 3.0]. *)
Theorem critiques_consistent (mcqs : list MCQ) (chunks : list Chunk) :
  ensures (MCQCriticAgent.critique_mcqs svc mcqs chunks)
    (λ cs, length cs = length mcqs
           ∧ ∀ i c, cs !! i = Some c →
               c_mcq_index c = i
               ∧ overall_score c
                 = ((clarity_score c + correctness_score c
                     + grounding_score c) / 3)%float).
Proof.
  intros st.
  destruct (critique_mcqs_spec svc mcqs chunks st)
    as (cs & st' & Hrun & Hlen & Hcs).
  exists cs, st'. split_and!; try done.
  intros i c Hc.
  destruct (lookup_lt_is_Some_2 mcqs i) as [mcq Hmcq].
  { rewrite <- Hlen. by eapply lookup_lt_Some. }
  destruct (Hcs i mcq Hmcq) as (c' & s' & Hc' & Hbody).
  assert (c' = c) as -> by congruence.
  apply critique_mcq_constructed in Hbody
    as (a & b & g & lvl & notes & advice & ->).
  by cbn.
Qed.

(** X7. The source fragment of an MCQ is the first fragment whose
    [chunk_id] equals the MCQ's; when no fragment has that id it is the first
    fragment of the list; there is none only when the list is empty. *)
Theorem source_chunk_lookup (chunks : list Chunk) (mcq : MCQ) :
  match MCQCriticAgent.find_source_chunk chunks mcq with
  | Some c =>
      (∃ before after,
          chunks = before ++ c :: after
          ∧ ch_chunk_id c = chunk_id mcq
          ∧ Forall (λ c', ch_chunk_id c' ≠ chunk_id mcq) before)
      ∨ (head chunks = Some c
         ∧ Forall (λ c', ch_chunk_id c' ≠ chunk_id mcq) chunks)
  | None => chunks = []
  end.
Proof.
  unfold MCQCriticAgent.find_source_chunk.
  induction chunks as [|c0 chunks IH]; [done|].
  cbn [find]. destruct (String.eqb_spec (ch_chunk_id c0) (chunk_id mcq)) as [Heq|Hne].
  - left. exists [], chunks. by split_and!.
  - destruct (find _ chunks) as [c|] eqn:Hfind.
    + left. destruct IH as [(before & after & -> & Hid & Hbefore)|[Hhead Hall]].
      * exists (c0 :: before), after. split_and!; [done|done|].
        by apply Forall_cons.
      * destruct chunks as [|c1 chunks]; [done|].
        cbn in Hhead. injection Hhead as ->.
        apply Forall_cons in Hall as [Hc _].
        apply find_some in Hfind as [_ Hid].
        by apply String.eqb_eq in Hid.
    + right. split; [done|]. apply Forall_cons. split; [done|].
      apply Forall_forall. intros c' Hc' Hid.
      apply list_elem_of_In in Hc'.
      pose proof (find_none _ _ Hfind c' Hc') as Hno. cbn in Hno.
      apply String.eqb_neq in Hno. done.
Qed.

Lemma critique_loop_no_context (l : list MCQ) :
  ∀ (i : nat) (acc : list CritiqueResult) (st : State World),
    MCQCriticAgent.critique_loop svc [] i l acc st
    = (Ok (acc ++ imap (λ j, MCQCriticAgent.no_context_critique (i + j)) l), st).
Proof.
  induction l as [|m l IH]; intros i acc st.
  - cbn. by rewrite app_nil_r.
  - cbn [MCQCriticAgent.critique_loop]. unfold bind at 1.
    unfold MCQCriticAgent.critique_mcq at 1. cbn [MCQCriticAgent.find_source_chunk find head ret].
    rewrite IH, <- app_assoc. cbn [app imap]. do 3 f_equal.
    replace (i + 0)%nat with i by lia. f_equal.
    apply imap_ext. intros j x _. cbn. f_equal. lia.
Qed.

(** X8. With an empty fragment list the critique stage calls no service and
    prints nothing: it leaves the state as it was and gives every MCQ the
    critique with scores 5.0, 5.0 and 0.0.  Validation then marks every such
    MCQ as not grounded and hallucinated, with status [INVALID]. *)
Theorem critique_without_context (mcqs : list MCQ) (st : State World) :
  MCQCriticAgent.critique_mcqs svc mcqs [] st
  = (Ok (imap MCQCriticAgent.no_context_critique mcqs), st)
  ∧ Forall (λ v, is_context_grounded v = false
                 ∧ has_hallucination v = true
                 ∧ status v = INVALID)
      (MCQValidationAgent.validate_mcqs mcqs
         (imap MCQCriticAgent.no_context_critique mcqs) []).
Proof.
  split.
  - unfold MCQCriticAgent.critique_mcqs. by rewrite critique_loop_no_context.
  - apply Forall_lookup. intros i v Hv.
    unfold MCQValidationAgent.validate_mcqs in Hv.
    rewrite list_lookup_imap in Hv.
    destruct (mcqs !! i) as [mcq|] eqn:Hi; [|done]. injection Hv as <-.
    rewrite validate_mcq_spec, list_lookup_imap, Hi. cbn [fmap option_fmap option_map].
    cbn [status is_context_grounded has_hallucination].
    split_and!; try reflexivity.
    change (grounding_errors (Some (MCQCriticAgent.no_context_critique i mcq)))
      with [LowGroundingScore 0; PotentialHallucination].
    destruct (format_errors mcq ++ metadata_errors mcq ++ _) as [|e l] eqn:E.
    + apply app_nil_3 in E as (_ & _ & [=]).
    + reflexivity.
Qed.

End MoreCritique.

(** ** Generated MCQs *)

Lemma str_take_length (n : nat) : ∀ s,
  String.length (str_take n s) = min n (String.length s).
Proof.
  induction n as [|n IH]; intros s; [done|].
  destruct s as [|c s]; [done|]. cbn. by rewrite IH.
Qed.

Lemma str_take_all (n : nat) : ∀ s,
  (String.length s ≤ n)%nat → str_take n s = s.
Proof.
  induction n as [|n IH]; intros s Hs.
  - destruct s; [done|]. cbn in Hs. lia.
  - destruct s as [|c s]; [done|]. cbn in *. rewrite IH; [done|lia].
Qed.

Lemma string_app_length (s1 s2 : string) :
  String.length (String.app s1 s2) = (String.length s1 + String.length s2)%nat.
Proof.
  induction s1 as [|c s1 IH]; [done|].
  change (String.app (String c s1) s2) with (String c (String.app s1 s2)).
  cbn [String.length]. by rewrite IH.
Qed.

Lemma list_getitem_inv {A} (l : list A) (k : Z) (x : A) :
  list_getitem l k = Ok x →
  (- Z.of_nat (length l) ≤ k < Z.of_nat (length l))%Z
  ∧ l !! Z.to_nat (if (k <? 0)%Z then k + Z.of_nat (length l) else k)%Z
    = Some x.
Proof.
  unfold list_getitem.
  destruct (Z.ltb_spec k 0) as [Hneg|Hpos].
  - destruct (Z.ltb_spec (k + Z.of_nat (length l)) 0); [done|].
    destruct (l !! Z.to_nat (k + Z.of_nat (length l))) as [y|] eqn:Hy; [|done].
    intros [= ->]. split; [lia|done].
  - destruct (Z.ltb_spec k 0); [lia|].
    destruct (l !! Z.to_nat k) as [y|] eqn:Hy; [|done].
    intros [= ->]. apply lookup_lt_Some in Hy as Hlt. split; [lia|done].
Qed.

Lemma filter_ext_elem {A} (P Q : A → Prop) `{∀ x, Decision (P x)}
    `{∀ x, Decision (Q x)} (l : list A) :
  (∀ x, x ∈ l → (P x ↔ Q x)) → filter P l = filter Q l.
Proof.
  induction l as [|x l IH]; intros Hl; [done|].
  rewrite !filter_cons.
  assert (P x ↔ Q x) as Hx by (apply Hl; left).
  rewrite IH by (intros y Hy; apply Hl; by right).
  destruct (decide (P x)), (decide (Q x)); tauto.
Qed.

Section MoreGeneration.
Context {World : Type} (svc : Services World).

(** X9. Generation is all or nothing.  With an empty context it returns the
    empty list and leaves the state as it was: the service is not called.
    Otherwise it calls the service once; when the answer parses it returns
    either one MCQ per item, in the order of the items, the MCQ at index [i]
    built from item [i] and tagged [generation_order = i], with nothing
    printed, or no MCQ at all, with one error line printed; when the call or
    the parsing fails it returns no MCQ and prints one error line. *)
Theorem generation_all_or_nothing (chunks : list Chunk) (num : Z)
    (difficulty : option string) (st : State World) :
  ∃ ms st',
    MCQGenerationAgent.generate_mcqs svc chunks num difficulty st = (Ok ms, st')
    ∧ match chunks with
      | [] => ms = [] ∧ st' = st
      | _ :: _ =>
          world st'
          = (generation_service svc chunks num difficulty (world st)).2
          ∧ match (generation_service svc chunks num difficulty (world st)).1
            with
            | Parsed items =>
                (ms = [] ∧ ∃ e, console st' = console st ++ [LErrorGenerating e])
                ∨ (length ms = length items
                   ∧ console st' = console st
                   ∧ ∀ i m, ms !! i = Some m →
                       ∃ d, items !! i = Some d
                         ∧ MCQGenerationAgent.build_mcq chunks i d = Ok m
                         ∧ metadata m = {[ "generation_order" := Z.of_nat i ]})
            | _ => ms = [] ∧ ∃ e, console st' = console st ++ [LErrorGenerating e]
            end
      end.
Proof.
  rewrite generate_mcqs_spec.
  destruct chunks as [|c chunks]; [by eexists _, _|].
  destruct (generation_service svc (c :: chunks) num difficulty (world st))
    as [[| |items] w]; cbn [fst snd].
  - eexists _, _. split_and!; try done. by eexists.
  - eexists _, _. split_and!; try done. by eexists.
  - destruct (MCQGenerationAgent.build_mcqs (c :: chunks) 0 items [])
      as [ms|e] eqn:Hbuild.
    + eexists _, _. split_and!; try done. right.
      apply build_mcqs_inv in Hbuild as (built & -> & Hlen & Hbuilt).
      cbn [app world console]. split_and!; try done.
      intros i m Hm. destruct (Hbuilt i m Hm) as (d & Hd & Hbuild).
      exists d. cbn in Hbuild. split_and!; try done.
      by apply build_mcq_inv in Hbuild
        as (? & ? & _ & _ & _ & _ & _ & _ & _ & _ & _ & ?).
    + eexists _, _. split_and!; try done. left. split; [done|]. by eexists.
Qed.

End MoreGeneration.

(** X10. A fragment reference within the list selects that fragment: a
    reference [k] with [0 <= k < len] selects fragment [k], and a negative
    one with [-len <= k] selects fragment [len + k], counted from the end.
    The built MCQ takes its [chunk_id], source filename and snippet from
    it. *)
Theorem chunk_index_in_range (chunks : list Chunk) (i : nat) (d : McqData)
    (mcq : MCQ) (k : Z) :
  MCQGenerationAgent.build_mcq chunks i d = Ok mcq →
  md_chunk_index d = Some k →
  (k < Z.of_nat (length chunks))%Z →
  (- Z.of_nat (length chunks) ≤ k)%Z
  ∧ ∃ c,
      chunks !! Z.to_nat (if (k <? 0)%Z then k + Z.of_nat (length chunks)
                          else k)%Z = Some c
      ∧ chunk_id mcq = ch_chunk_id c
      ∧ source_filename mcq = ch_source c
      ∧ context_snippet mcq = String.app (str_take 200 (ch_text c)) "...".
Proof.
  intros Hbuild Hk Hlt.
  apply build_mcq_inv in Hbuild
    as (source & opts & Hsource & _ & _ & _ & _ & _ & -> & -> & -> & _).
  rewrite Hk in Hsource. change (default 0%Z (Some k)) with k in Hsource.
  apply Z.ltb_lt in Hlt. rewrite Hlt in Hsource.
  apply list_getitem_inv in Hsource as [Hrange Hsource].
  split; [lia|]. by exists source.
Qed.

Lemma chunk_index_in_range_witness :
  ∃ mcq,
    MCQGenerationAgent.build_mcq sample_chunks 0 (sample_item (Some (-2)%Z))
    = Ok mcq
    ∧ chunk_id mcq = "0".
Proof.
  eexists. split; [reflexivity|].
  destruct (chunk_index_in_range sample_chunks 0 (sample_item (Some (-2)%Z))
              _ (-2) eq_refl eq_refl eq_refl)
    as (_ & c & Hc & Hid & _).
  vm_compute in Hc. injection Hc as <-. exact Hid.
Defined.

(** [s[:n]] is the beginning of [s]. *)
Lemma str_take_prefix (n : nat) : ∀ s,
  ∃ rest, s = String.app (str_take n s) rest.
Proof.
  induction n as [|n IH]; intros s; [by exists s|].
  destruct s as [|c s]; [by exists ""|].
  destruct (IH s) as [rest Hrest]. exists rest.
  cbn [str_take].
  change (String.app (String c (str_take n s)) rest)
    with (String c (String.app (str_take n s) rest)).
  by rewrite <- Hrest.
Qed.

(** X11. The context snippet of a built MCQ is the first 200 characters of
    the text of one of the fragments, followed by three dots: the text is
    [first] followed by [rest], where [first] has 200 characters, or all the
    characters of a shorter text, and the snippet is [first] followed by the
    dots.  The dots are added even when the text is not cut, and the snippet
    never exceeds 203 characters. *)
Theorem context_snippet_bounded (chunks : list Chunk) (i : nat) (d : McqData)
    (mcq : MCQ) :
  MCQGenerationAgent.build_mcq chunks i d = Ok mcq →
  (String.length (context_snippet mcq) ≤ 203)%nat
  ∧ ∃ c, c ∈ chunks
      ∧ chunk_id mcq = ch_chunk_id c
      ∧ String.length (context_snippet mcq)
        = (min 200 (String.length (ch_text c)) + 3)%nat
      ∧ ((String.length (ch_text c) ≤ 200)%nat →
         context_snippet mcq = String.app (ch_text c) "...")
      ∧ ∃ first rest,
          ch_text c = String.app first rest
          ∧ String.length first = min 200 (String.length (ch_text c))
          ∧ first = str_take 200 (ch_text c)
          ∧ context_snippet mcq = String.app first "...".
Proof.
  intros Hbuild.
  apply build_mcq_inv in Hbuild
    as (source & opts & Hsource & _ & _ & _ & _ & _ & -> & _ & -> & _).
  rewrite string_app_length, str_take_length. cbn [String.length].
  split; [lia|]. exists source. split_and!; try done.
  - destruct (default 0%Z (md_chunk_index d) <? Z.of_nat (length chunks))%Z;
      apply list_getitem_inv in Hsource as [_ Hsource];
      by eapply list_elem_of_lookup_2.
  - intros Hshort. by rewrite str_take_all.
  - destruct (str_take_prefix 200 (ch_text source)) as [rest Hrest].
    exists (str_take 200 (ch_text source)), rest.
    split_and!; try done. apply str_take_length.
Qed.

Lemma context_snippet_bounded_witness :
  ∃ mcq first rest,
    MCQGenerationAgent.build_mcq [long_chunk] 0 (sample_item None) = Ok mcq
    ∧ ch_text long_chunk = String.app first rest
    ∧ String.length first = 200%nat
    ∧ String.length rest = 50%nat
    ∧ context_snippet mcq = String.app first "..."
    ∧ String.length (context_snippet mcq) = 203%nat.
Proof.
  eexists.
  destruct (context_snippet_bounded [long_chunk] 0 (sample_item None) _ eq_refl)
    as (_ & c & Hc & _ & Hlen & _ & first & rest & Htext & Hfirst & _ & Hsnip).
  apply list_elem_of_singleton in Hc as ->.
  exists first, rest. split_and!; try done.
  pose proof (f_equal String.length Htext) as Hall.
  rewrite string_app_length, Hfirst in Hall.
  change (String.length (ch_text long_chunk)) with 250%nat in Hall. lia.
Defined.

(** In a built MCQ an option is flagged exactly when its label is the
    declared answer. *)
Lemma built_flags (chunks : list Chunk) (i : nat) (d : McqData) (mcq : MCQ) :
  MCQGenerationAgent.build_mcq chunks i d = Ok mcq →
  ∀ opt, opt ∈ options mcq →
    (is_correct opt = true ↔ label opt = correct_answer mcq).
Proof.
  intros Hbuild opt Hopt.
  apply build_mcq_inv in Hbuild
    as (source & opts & _ & _ & Hopts & _ & Hca & _).
  destruct (build_options_inv d opts _ Hopts opt Hopt) as (ca & Hca' & ->).
  assert (ca = correct_answer mcq) as -> by congruence.
  apply String.eqb_eq.
Qed.

(** What an MCQ without structural error looks like. *)
Lemma format_errors_nil (mcq : MCQ) :
  format_errors mcq = [] →
  (10 ≤ String.length (strip (question mcq)))%nat
  ∧ length (options mcq) = 4%nat
  ∧ length (filter (λ opt, is_correct opt = true) (options mcq)) = 1%nat
  ∧ (10 ≤ String.length (strip (explanation mcq)))%nat
  ∧ MCQValidationAgent.actual_labels mcq = MCQValidationAgent.expected_labels.
Proof.
  unfold format_errors. split_checks; cbn [app]; intros Hnil;
    try discriminate Hnil; split_and!; done || lia.
Qed.

(** When the flags follow the declared answer and the structural check
    passes, the declared answer is one of the four labels and is the label of
    the one flagged option. *)
Lemma flagged_answer (mcq : MCQ) :
  (∀ opt, opt ∈ options mcq →
     (is_correct opt = true ↔ label opt = correct_answer mcq)) →
  format_errors mcq = [] →
  correct_answer mcq ∈ MCQValidationAgent.expected_labels
  ∧ ∃ opt, filter (λ opt, is_correct opt = true) (options mcq) = [opt]
         ∧ label opt = correct_answer mcq.
Proof.
  intros Hflag Hnone.
  apply format_errors_nil in Hnone as (_ & _ & Hone & _ & Hlabels).
  destruct (filter (λ opt, is_correct opt = true) (options mcq))
    as [|opt [|opt' l]] eqn:Hf; try done.
  assert (opt ∈ filter (λ opt, is_correct opt = true) (options mcq))
    as Hin by (rewrite Hf; left).
  apply list_elem_of_filter in Hin as [Hcorrect Hin].
  apply Hflag in Hcorrect; [|done].
  split; [|by exists opt].
  rewrite <- Hlabels, <- Hcorrect. unfold MCQValidationAgent.actual_labels.
  apply elem_of_list_to_set, list_elem_of_fmap. by exists opt.
Qed.

(** X12. In a built MCQ the flagged options are the options whose label is
    the declared answer.  So when such an MCQ passes the structural check,
    its declared answer is one of A, B, C, D and it is the label of the one
    flagged option; and when no option carries the declared answer, the check
    records that 0 correct answers were found. *)
Theorem generated_answer_consistent (chunks : list Chunk) (i : nat)
    (d : McqData) (mcq : MCQ) :
  MCQGenerationAgent.build_mcq chunks i d = Ok mcq →
  filter (λ opt, is_correct opt = true) (options mcq)
  = filter (λ opt, label opt = correct_answer mcq) (options mcq)
  ∧ (format_errors mcq = [] →
     correct_answer mcq ∈ MCQValidationAgent.expected_labels
     ∧ ∃ opt, filter (λ opt, is_correct opt = true) (options mcq) = [opt]
            ∧ label opt = correct_answer mcq)
  ∧ ((∀ opt, opt ∈ options mcq → label opt ≠ correct_answer mcq) →
     WrongCorrectCount 0 ∈ format_errors mcq).
Proof.
  intros Hbuild. pose proof (built_flags _ _ _ _ Hbuild) as Hflag.
  assert (filter (λ opt, is_correct opt = true) (options mcq)
          = filter (λ opt, label opt = correct_answer mcq) (options mcq))
    as Hfilter by (by apply filter_ext_elem).
  split_and!; [done|by apply flagged_answer|].
  intros Hnone. unfold format_errors. rewrite Hfilter.
  assert (filter (λ opt, label opt = correct_answer mcq) (options mcq) = [])
    as ->.
  { destruct (filter (λ opt, label opt = correct_answer mcq) (options mcq))
      as [|opt l] eqn:Hf; [done|].
    assert (opt ∈ filter (λ opt, label opt = correct_answer mcq)
                    (options mcq)) as Hin by (rewrite Hf; left).
    apply list_elem_of_filter in Hin as [Hlabel Hin].
    by destruct (Hnone opt Hin). }
  cbn [length Nat.eqb]. rewrite !elem_of_app. right. right. left. left.
Qed.

Lemma generated_answer_consistent_witness :
  ∃ mcq,
    MCQGenerationAgent.build_mcq sample_chunks 0 (sample_item None) = Ok mcq
    ∧ correct_answer mcq ∈ MCQValidationAgent.expected_labels.
Proof.
  eexists. split; [reflexivity|].
  destruct (generated_answer_consistent sample_chunks 0 (sample_item None)
              _ eq_refl) as (_ & Hpass & _).
  apply Hpass. by vm_compute.
Defined.

(** ** Runs of the orchestrator *)

Lemma select_from_ext (keep keep' : nat → bool) (l : list MCQ) :
  ∀ start,
    (∀ j, (j < length l)%nat → keep (start + j)%nat = keep' (start + j)%nat) →
    select_from keep start l = select_from keep' start l.
Proof.
  induction l as [|m l IH]; intros start Hkeep; [done|].
  rewrite !select_from_cons.
  assert (keep start = keep' start) as ->.
  { specialize (Hkeep 0%nat). replace (start + 0)%nat with start in Hkeep by lia.
    apply Hkeep. cbn. lia. }
  rewrite (IH (S start)); [done|].
  intros j Hj. replace (S start + j)%nat with (start + S j)%nat by lia.
  apply Hkeep. cbn. lia.
Qed.

(** In the validations of a list of MCQs, the accepted indices are those
    without an error. *)
Lemma accepted_error_free (ms : list MCQ) (cs : list CritiqueResult)
    (chunks : list Chunk) (i : nat) :
  accepted (MCQValidationAgent.validate_mcqs ms cs chunks) i
  = error_free (MCQValidationAgent.validate_mcqs ms cs chunks) i.
Proof.
  unfold accepted, error_free, MCQValidationAgent.validate_mcqs.
  rewrite list_lookup_imap. destruct (ms !! i) as [mcq|]; [|done]. cbn.
  destruct (validate_mcq_valid cs i mcq) as [_ Hvalid]. cbn zeta in Hvalid.
  destruct (validation_errors (MCQValidationAgent.validate_mcq cs i mcq))
    as [|e l].
  - by apply Hvalid.
  - destruct (is_valid (MCQValidationAgent.validate_mcq cs i mcq)); [|done].
    by destruct Hvalid as [Hvalid _]; specialize (Hvalid eq_refl).
Qed.

(** A [print] in front of a computation changes nothing of what it
    returns. *)
Ltac print_step :=
  eapply (ensures_bind _ _ (λ _, True)); [by apply ensures_print|intros _ _].

Lemma on_return_ret {World A} (a : A) (P : A → Prop) :
  P a → on_return (ret (World := World) a) P.
Proof. intros Ha st a' st'. by intros [= <- _]. Qed.

Lemma on_return_bind {World A B} (m : M World A) (k : A → M World B)
    (P : A → Prop) (Q : B → Prop) :
  on_return m P → (∀ a, P a → on_return (k a) Q) → on_return (bind m k) Q.
Proof.
  intros Hm Hk st b st'. unfold bind.
  destruct (m st) as [[a|e] st1] eqn:Ha; [|done].
  apply (Hk a (Hm st a st1 Ha)).
Qed.

(** What always returns with [P] returns with [P] when it returns. *)
Lemma ensures_on_return {World A} (m : M World A) (P : A → Prop) :
  ensures m P → on_return m P.
Proof.
  intros Hm st a st' Ha. destruct (Hm st) as (a' & st1 & Ha' & HP).
  congruence.
Qed.

Ltac skip_print :=
  eapply (on_return_bind _ _ (λ _, True)); [by intros ? ? ?|intros _ _].

Section Runs.
Context {World : Type} (svc : Services World).

Lemma ensures_critique_length (mcqs : list MCQ) (chunks : list Chunk) :
  ensures (MCQCriticAgent.critique_mcqs svc mcqs chunks)
    (λ cs, length cs = length mcqs).
Proof.
  intros st.
  destruct (critique_mcqs_spec svc mcqs chunks st) as (cs & st' & Hrun & Hlen & _).
  by exists cs, st'.
Qed.

Lemma ensures_print_scores (critiques : list CritiqueResult) :
  ∀ i, ensures (MCQOrchestrator.print_scores (World := World) i critiques)
         (λ _, True).
Proof.
  induction critiques as [|c critiques IH]; intros i; cbn.
  - by apply ensures_ret.
  - print_step. apply IH.
Qed.

(** Every MCQ that generation returns was built from an item of the
    answer. *)
Lemma ensures_generation_built (chunks : list Chunk) (num : Z)
    (difficulty : option string) :
  ensures (MCQGenerationAgent.generate_mcqs svc chunks num difficulty)
    (Forall (λ m, ∃ i d, MCQGenerationAgent.build_mcq chunks i d = Ok m)).
Proof.
  intros st. rewrite generate_mcqs_spec.
  destruct chunks as [|c chunks]; [by eexists _, _|].
  destruct (generation_service svc (c :: chunks) num difficulty (world st))
    as [[| |items] w]; try by eexists _, _.
  destruct (MCQGenerationAgent.build_mcqs (c :: chunks) 0 items [])
    as [ms|e] eqn:Hbuild; [|by eexists _, _].
  eexists _, _. split; [reflexivity|].
  apply build_mcqs_inv in Hbuild as (built & -> & _ & Hbuilt).
  apply Forall_lookup. intros i m Hm.
  destruct (Hbuilt i m Hm) as (d & _ & Hd). eauto.
Qed.

(** The two shapes of the result of a run that returns: the empty result, or
    the result built from the generated MCQs, one critique for each, and
    their validations. *)
Lemma run_cases (query : string) (num : Z) (difficulty : option string)
    (top_k : Z) (P : MCQGenerationResult → Prop) :
  P (MCQGenerationResult_init query [] [] []) →
  (∀ chunks ms cs,
     chunks ≠ [] → ms ≠ [] → length cs = length ms →
     Forall (λ m, ∃ i d, MCQGenerationAgent.build_mcq chunks i d = Ok m) ms →
     P (MCQGenerationResult_init query ms cs
          (MCQValidationAgent.validate_mcqs ms cs chunks))) →
  on_return (MCQOrchestrator.generate_mcqs svc query num difficulty top_k) P.
Proof.
  intros Hempty Hfull. unfold MCQOrchestrator.generate_mcqs.
  skip_print.
  eapply (on_return_bind _ _ (λ _, True)); [by intros ? ? ?|].
  intros chunks _.
  skip_print.
  destruct chunks as [|c chunks].
  { skip_print.
    by apply on_return_ret. }
  skip_print.
  eapply on_return_bind;
    [apply ensures_on_return, ensures_generation_built|].
  intros ms Hbuilt.
  skip_print.
  destruct ms as [|m ms].
  { skip_print.
    by apply on_return_ret. }
  skip_print.
  eapply on_return_bind;
    [apply ensures_on_return, ensures_critique_length|intros cs Hcs].
  skip_print.
  eapply on_return_bind;
    [apply ensures_on_return, ensures_print_scores|intros _ _].
  repeat (skip_print).
  apply on_return_ret. by apply Hfull.
Qed.

(** X13. When retrieval finds no fragment the run ends at once: it returns
    the empty result in the state retrieval left, having printed only the
    retrieval lines, so the text-generation service is not called. *)
Theorem run_without_context (query : string) (num : Z)
    (difficulty : option string) (top_k : Z) (st : State World) (w : World) :
  retrieval_service svc query top_k (world st) = (Ok [], w) →
  MCQOrchestrator.generate_mcqs svc query num difficulty top_k st
  = (Ok (MCQGenerationResult_init query [] [] []),
     mkState w (console st ++ [LRetrieving query; LRetrieved 0; LNoContext]))
  ∧ mcqs (MCQGenerationResult_init query [] [] []) = []
  ∧ valid_mcqs (MCQGenerationResult_init query [] [] []) = []
  ∧ invalid_mcqs (MCQGenerationResult_init query [] [] []) = [].
Proof.
  intros Hretrieve. split; [|done].
  unfold MCQOrchestrator.generate_mcqs, MCQOrchestrator.retrieve_context,
    bind, print, ret.
  cbn [world console]. rewrite Hretrieve. cbn [world console length].
  by rewrite <- !app_assoc.
Qed.

(** X14. The result a run returns is consistent: it carries the query it
    was run for, one critique and one validation per MCQ, the validation at
    index [i] carrying [mcq_index = i]; its [valid_mcqs] are the MCQs whose
    validation records no error and its [invalid_mcqs] the other ones, both
    in order. *)
Theorem run_result_consistent (query : string) (num : Z)
    (difficulty : option string) (top_k : Z) (st st' : State World)
    (r : MCQGenerationResult) :
  MCQOrchestrator.generate_mcqs svc query num difficulty top_k st
  = (Ok r, st') →
  r_query r = query
  ∧ length (critiques r) = length (mcqs r)
  ∧ length (validations r) = length (mcqs r)
  ∧ (∀ i v, validations r !! i = Some v → v_mcq_index v = i)
  ∧ valid_mcqs r = select_from (error_free (validations r)) 0 (mcqs r)
  ∧ invalid_mcqs r
    = select_from (λ i, negb (error_free (validations r) i)) 0 (mcqs r).
Proof.
  revert st r st'.
  apply (run_cases query num difficulty top_k
           (λ r, r_query r = query
                 ∧ length (critiques r) = length (mcqs r)
                 ∧ length (validations r) = length (mcqs r)
                 ∧ (∀ i v, validations r !! i = Some v → v_mcq_index v = i)
                 ∧ valid_mcqs r
                   = select_from (error_free (validations r)) 0 (mcqs r)
                 ∧ invalid_mcqs r
                   = select_from (λ i, negb (error_free (validations r) i)) 0
                       (mcqs r))); [by split_and!|].
  intros chunks ms cs _ _ Hcs _.
  unfold MCQGenerationResult_init. rewrite partition_mcqs_spec.
  cbn [r_query mcqs critiques validations valid_mcqs invalid_mcqs app].
  split_and!; try done.
  - unfold MCQValidationAgent.validate_mcqs. apply length_imap.
  - intros i v. unfold MCQValidationAgent.validate_mcqs.
    rewrite list_lookup_imap. destruct (ms !! i) as [mcq|]; [|done].
    cbn. intros [= <-]. by rewrite validate_mcq_spec.
  - apply select_from_ext. intros j _. apply accepted_error_free.
  - apply select_from_ext. intros j _. by rewrite accepted_error_free.
Qed.

Lemma on_return_batch_loop (n : nat) (num : Z) (difficulty : option string)
    (top_k : Z) (queries : list string) :
  ∀ i results,
    on_return (MCQOrchestrator.batch_loop svc n num difficulty top_k i queries
                 results)
      (λ rs, r_query <$> rs = (r_query <$> results) ++ queries).
Proof.
  induction queries as [|q queries IH]; intros i results; cbn.
  - apply on_return_ret. by rewrite app_nil_r.
  - skip_print.
    eapply on_return_bind.
    { apply (run_cases q num difficulty top_k (λ r, r_query r = q)); [done|].
      intros chunks ms cs _ _ _ _. unfold MCQGenerationResult_init.
      by destruct (partition_mcqs _ 0 ms [] []). }
    intros r Hr st rs st' Hrs. rewrite (IH _ _ _ _ _ Hrs).
    rewrite fmap_app, <- app_assoc. cbn. by rewrite Hr.
Qed.

(** X15. When a batch returns, it returns one result per query, in the order
    of the queries, each result carrying its query; at least one MCQ was
    generated over the batch, and the last line printed is the success
    rate. *)
Theorem batch_results_ordered (queries : list string) (num : Z)
    (difficulty : option string) (top_k : Z) (st st' : State World)
    (results : list MCQGenerationResult) :
  MCQOrchestrator.generate_mcqs_batch svc queries num difficulty top_k st
  = (Ok results, st') →
  r_query <$> results = queries
  ∧ length results = length queries
  ∧ total_generated results ≠ 0%nat
  ∧ ∃ printed,
      console st'
      = printed
        ++ [LSuccessRate (float_of_nat (total_valid results)
                          / float_of_nat (total_generated results)
                          * 100)%float].
Proof.
  unfold MCQOrchestrator.generate_mcqs_batch.
  unfold bind at 1. unfold print at 1. unfold bind at 1.
  destruct (MCQOrchestrator.batch_loop svc (length queries) num difficulty
              top_k 1 queries [] _) as [[rs|e] st1] eqn:Hloop; [|done].
  apply on_return_batch_loop in Hloop as Hqueries.
  fold (total_valid rs). fold (total_generated rs).
  unfold bind, print, lift, ret, truediv. cbn [world console].
  destruct (Nat.eqb_spec (total_generated rs) 0) as [|Hne]; [done|].
  cbn zeta. intros [= <- <-]. cbn in Hqueries.
  split_and!; try done.
  - by rewrite <- Hqueries, length_fmap.
  - cbn [console]. by eexists.
Qed.

(** X23. The orchestrator calls retrieval outside any [try]: when retrieval
    raises, the run raises the same exception in the state retrieval left,
    having printed only the line that announces the retrieval.  The batch
    loop has no [try] around a run either: the iteration raises with it,
    whatever results the earlier queries gave, and a batch whose first query
    fails in this way raises and returns no result. *)
Theorem retrieval_error_propagates (query : string) (num : Z)
    (difficulty : option string) (top_k : Z) (st : State World) (e : exn)
    (w : World) :
  retrieval_service svc query top_k (world st) = (Raise e, w) →
  MCQOrchestrator.generate_mcqs svc query num difficulty top_k st
  = (Raise e, mkState w (console st ++ [LRetrieving query]))
  ∧ (∀ n i rest results,
       MCQOrchestrator.batch_loop svc n num difficulty top_k i (query :: rest)
         results st
       = (Raise e,
          mkState w (console st ++ [LBatchQuery i n; LRetrieving query])))
  ∧ (∀ rest,
       MCQOrchestrator.generate_mcqs_batch svc (query :: rest) num difficulty
         top_k st
       = (Raise e,
          mkState w (console st ++ [LBatchStart (S (length rest));
                                    LBatchQuery 1 (S (length rest));
                                    LRetrieving query]))).
Proof.
  intros Hretrieve.
  assert (∀ prefix,
            MCQOrchestrator.generate_mcqs svc query num difficulty top_k
              (mkState (world st) (console st ++ prefix))
            = (Raise e,
               mkState w (console st ++ prefix ++ [LRetrieving query])))
    as Hrun.
  { intros prefix.
    unfold MCQOrchestrator.generate_mcqs, MCQOrchestrator.retrieve_context.
    unfold bind at 1. unfold print at 1. unfold bind at 1.
    cbn [world console]. rewrite Hretrieve. by rewrite <- app_assoc. }
  split_and!.
  - specialize (Hrun []). rewrite app_nil_r in Hrun.
    by destruct st.
  - intros n i rest results. cbn [MCQOrchestrator.batch_loop].
    unfold bind at 1. unfold print at 1. unfold bind at 1.
    by rewrite Hrun.
  - intros rest. unfold MCQOrchestrator.generate_mcqs_batch.
    unfold bind at 1. unfold print at 1. unfold bind at 1.
    cbn [MCQOrchestrator.batch_loop length].
    unfold bind at 1. unfold print at 1. unfold bind at 1.
    cbn [world console]. rewrite <- app_assoc. cbn [app].
    by rewrite Hrun.
Qed.

End Runs.

Lemma run_without_context_witness :
  (MCQOrchestrator.generate_mcqs (sample_services [] Malformed Malformed)
     "capitals" 3 None 5 initial_state).2
  = mkState tt [LRetrieving "capitals"; LRetrieved 0; LNoContext].
Proof.
  destruct (run_without_context (sample_services [] Malformed Malformed)
              "capitals" 3 None 5 initial_state tt eq_refl) as [Hrun _].
  by rewrite Hrun.
Defined.

Lemma run_result_consistent_witness :
  ∃ r,
    (MCQOrchestrator.generate_mcqs
       (sample_services sample_chunks (Parsed [sample_item None])
          (Parsed full_critique_data))
       "capitals" 1 None 5 initial_state).1 = Ok r
    ∧ r_query r = "capitals"
    ∧ length (mcqs r) = 1%nat
    ∧ length (critiques r) = length (mcqs r)
    ∧ length (validations r) = length (mcqs r).
Proof.
  eexists. split; [by vm_compute|].
  destruct (run_result_consistent
              (sample_services sample_chunks (Parsed [sample_item None])
                 (Parsed full_critique_data))
              "capitals" 1 None 5 initial_state _ _ eq_refl)
    as (Hquery & Hcritiques & Hvalidations & _).
  by split_and!.
Defined.

Lemma retrieval_error_propagates_witness :
  MCQOrchestrator.generate_mcqs (failing_retrieval ValueError) "capitals" 3
    None 5 initial_state
  = (Raise ValueError, mkState tt [LRetrieving "capitals"])
  ∧ MCQOrchestrator.generate_mcqs_batch (failing_retrieval ValueError)
      ["capitals"; "rivers"] 3 None 5 initial_state
    = (Raise ValueError,
       mkState tt [LBatchStart 2; LBatchQuery 1 2; LRetrieving "capitals"]).
Proof.
  destruct (retrieval_error_propagates (failing_retrieval ValueError)
              "capitals" 3 None 5 initial_state ValueError tt eq_refl)
    as (Hrun & _ & Hbatch).
  split; [exact Hrun|]. exact (Hbatch ["rivers"]).
Defined.

Lemma batch_results_ordered_witness :
  ∃ results,
    (MCQOrchestrator.generate_mcqs_batch
       (sample_services sample_chunks (Parsed [sample_item None]) ServiceFailed)
       ["capitals"; "rivers"] 1 None 5 initial_state).1 = Ok results
    ∧ r_query <$> results = ["capitals"; "rivers"].
Proof.
  eexists. split; [by vm_compute|].
  eapply (batch_results_ordered
            (sample_services sample_chunks (Parsed [sample_item None])
               ServiceFailed)
            ["capitals"; "rivers"] 1 None 5 initial_state).
  by vm_compute.
Defined.

(** ** The base retriever *)

Lemma collect_spec {World} (self : RetrieverAgent World) (results : list Match) :
  ∀ acc,
    BaseRetriever.collect self results acc
    = acc ++ (BaseRetriever.chunk_of_match <$>
                filter (λ m, PrimFloat.leb (score_threshold self) (match_score m)
                             = true) results).
Proof.
  induction results as [|m results IH]; intros acc; cbn [BaseRetriever.collect].
  - by rewrite app_nil_r.
  - rewrite filter_cons.
    destruct (PrimFloat.leb (score_threshold self) (match_score m)) eqn:Hm.
    + rewrite decide_True by done. rewrite IH, <- app_assoc. by cbn.
    + rewrite decide_False by (by intros ?). apply IH.
Qed.

(** X16. Retrieval asks the index for [top_k] matches, or for the agent's
    own [top_k] when none or 0 is given, and keeps, in the order of the
    index, exactly the matches whose score is at least the threshold: every
    returned chunk has such a score and the id and score of its match, and a
    match with a lower score, or with a score that is not a number, is
    dropped.  Without an initialized index it raises [ValueError], after the
    query embedding has been computed. *)
Theorem retrieve_filters_by_score {World} (self : RetrieverAgent World)
    (query_text : string) (k : option Z)
    (filter_dict : option (gmap string MetaValue)) (st : State World) :
  let '(embedding, w1) := generate_query_embedding self query_text (world st) in
  let asked :=
    match k with
    | Some k' => if (k' =? 0)%Z then top_k self else k'
    | None => top_k self
    end in
  match index self with
  | None =>
      BaseRetriever.retrieve self query_text k filter_dict st
      = (Raise ValueError, mkState w1 (console st))
  | Some index_query =>
      let '(matches, w2) := index_query embedding asked filter_dict w1 in
      ∃ chunks,
        BaseRetriever.retrieve self query_text k filter_dict st
        = (Ok chunks, mkState w2 (console st))
        ∧ Forall (λ c, PrimFloat.leb (score_threshold self) (rc_score c) = true)
            chunks
        ∧ (rc_id <$> chunks)
          = match_id <$>
              filter (λ m, PrimFloat.leb (score_threshold self) (match_score m)
                           = true) matches
        ∧ (rc_score <$> chunks)
          = filter (λ s, PrimFloat.leb (score_threshold self) s = true)
              (match_score <$> matches)
        ∧ (length chunks ≤ length matches)%nat
  end.
Proof.
  unfold BaseRetriever.retrieve, BaseRetriever.query,
    BaseRetriever.effective_top_k, bind, ret.
  destruct (generate_query_embedding self query_text (world st)) as [e w1].
  cbn [world console].
  destruct (index self) as [index_query|]; [|done].
  destruct (index_query e _ filter_dict w1) as [matches w2].
  eexists. split; [reflexivity|].
  rewrite collect_spec. cbn [app].
  split_and!.
  - apply Forall_fmap, Forall_forall. intros m Hm.
    by apply list_elem_of_filter in Hm as [Hm _].
  - rewrite <- list_fmap_compose. by apply list_fmap_ext.
  - rewrite <- list_fmap_compose.
    induction matches as [|m matches IH]; [done|].
    cbn [fmap list_fmap]. rewrite !filter_cons.
    destruct (decide (PrimFloat.leb (score_threshold self) (match_score m)
                      = true)); cbn; by rewrite <- IH.
  - rewrite length_fmap. apply length_filter.
Qed.

(** ** Serialization *)

Lemma DifficultyLevel_round_trip (d : DifficultyLevel) :
  DifficultyLevel_call (DifficultyLevel_value d) = Ok d.
Proof. by destruct d. Qed.

Lemma DifficultyLevel_call_inv (s : string) (d : DifficultyLevel) :
  DifficultyLevel_call s = Ok d → s = DifficultyLevel_value d.
Proof.
  unfold DifficultyLevel_call, DifficultyLevel_of_value.
  destruct (String.eqb_spec s "easy") as [->|_]; [by intros [= <-]|].
  destruct (String.eqb_spec s "medium") as [->|_]; [by intros [= <-]|].
  destruct (String.eqb_spec s "hard") as [->|_]; [by intros [= <-]|done].
Qed.

Lemma MCQOptions_round_trip (opts : list MCQOption) :
  MCQOptions_from_dict (MCQOption_to_dict <$> opts) = Ok opts.
Proof.
  induction opts as [|[l t c] opts IH]; [done|].
  cbn. rewrite IH. done.
Qed.

Lemma MCQOptions_from_dict_inv (data : list OptionDict) :
  ∀ opts,
    MCQOptions_from_dict data = Ok opts →
    Forall2 (λ od opt, dk_label od = Some (label opt)
                       ∧ dk_text od = Some (text opt)
                       ∧ is_correct opt = default false (dk_is_correct od))
      data opts.
Proof.
  induction data as [|od data IH]; intros opts; cbn.
  - intros [= <-]. constructor.
  - unfold MCQOption_from_dict at 1.
    destruct (dk_label od) as [l|] eqn:Hl; cbn; [|done].
    destruct (dk_text od) as [t|] eqn:Ht; cbn; [|done].
    destruct (MCQOptions_from_dict data) as [os|]; cbn; [|done].
    intros [= <-]. constructor; [by rewrite Hl, Ht|by apply IH].
Qed.

(** X17. Serialization round trip: [MCQ.from_dict(mcq.to_dict())] returns
    an MCQ equal to [mcq], for every MCQ: the options with their flags, the
    difficulty through its string value, the snippet and the metadata. *)
Theorem mcq_dict_round_trip (mcq : MCQ) :
  MCQ_from_dict (MCQ_to_dict mcq) = Ok mcq.
Proof.
  destruct mcq as [q os ca ex df cid src snip meta].
  unfold MCQ_from_dict, MCQ_to_dict. cbn [dk_options getitem rbind].
  rewrite MCQOptions_round_trip. cbn [rbind getitem dk_question
    dk_correct_answer dk_explanation dk_difficulty dk_chunk_id
    dk_source_filename dk_context_snippet dk_metadata difficulty question
    options correct_answer explanation chunk_id source_filename
    context_snippet metadata].
  rewrite DifficultyLevel_round_trip. reflexivity.
Qed.

(** X18. What [MCQ.from_dict] returns is read off the dictionary: the seven
    required keys hold the fields, the difficulty by its string value (there
    is no default for it here), a missing [context_snippet] gives the empty
    string and a missing [metadata] the empty mapping; each option keeps the
    flag of its dictionary, false when the key is missing, and the flag is
    not derived from [correct_answer]. *)
Theorem from_dict_reads (data : MCQDict) (mcq : MCQ) :
  MCQ_from_dict data = Ok mcq →
  dk_question data = Some (question mcq)
  ∧ dk_correct_answer data = Some (correct_answer mcq)
  ∧ dk_explanation data = Some (explanation mcq)
  ∧ dk_difficulty data = Some (DifficultyLevel_value (difficulty mcq))
  ∧ dk_chunk_id data = Some (chunk_id mcq)
  ∧ dk_source_filename data = Some (source_filename mcq)
  ∧ context_snippet mcq = default "" (dk_context_snippet data)
  ∧ metadata mcq = default ∅ (dk_metadata data)
  ∧ ∃ opts, dk_options data = Some opts
      ∧ Forall2 (λ od opt, dk_label od = Some (label opt)
                           ∧ dk_text od = Some (text opt)
                           ∧ is_correct opt = default false (dk_is_correct od))
          opts (options mcq).
Proof.
  unfold MCQ_from_dict.
  destruct (dk_options data) as [opts|]; cbn [getitem rbind]; [|done].
  destruct (MCQOptions_from_dict opts) as [os|] eqn:Hos; cbn [rbind]; [|done].
  destruct (dk_question data) as [q|]; cbn [getitem rbind]; [|done].
  destruct (dk_correct_answer data) as [ca|]; cbn [getitem rbind]; [|done].
  destruct (dk_explanation data) as [ex|]; cbn [getitem rbind]; [|done].
  destruct (dk_difficulty data) as [level|]; cbn [getitem rbind]; [|done].
  destruct (DifficultyLevel_call level) as [df|] eqn:Hdf; cbn [rbind]; [|done].
  destruct (dk_chunk_id data) as [cid|]; cbn [getitem rbind]; [|done].
  destruct (dk_source_filename data) as [src|]; cbn [getitem rbind]; [|done].
  intros [= <-]. cbn.
  apply DifficultyLevel_call_inv in Hdf as ->.
  split_and!; try done.
  exists opts. split; [done|]. by apply MCQOptions_from_dict_inv.
Qed.

Lemma from_dict_reads_witness :
  ∃ mcq, MCQ_from_dict sample_dict = Ok mcq ∧ context_snippet mcq = "".
Proof.
  eexists. split; [reflexivity|].
  by destruct (from_dict_reads sample_dict _ eq_refl)
    as (_ & _ & _ & _ & _ & _ & Hsnippet & _).
Defined.

(** ** The size-based splitter *)

Lemma string_of_list_length (l : list ascii) :
  String.length (string_of_list_ascii l) = length l.
Proof. induction l as [|c l IH]; [done|]. cbn. by rewrite IH. Qed.

Lemma list_of_string_length (s : string) :
  length (list_ascii_of_string s) = String.length s.
Proof. induction s as [|c s IH]; [done|]. cbn. by rewrite IH. Qed.

Lemma string_of_list_app (l1 l2 : list ascii) :
  string_of_list_ascii (l1 ++ l2)
  = String.app (string_of_list_ascii l1) (string_of_list_ascii l2).
Proof.
  induction l1 as [|c l1 IH]; [done|].
  cbn [app string_of_list_ascii]. rewrite IH. reflexivity.
Qed.

(** A slice that starts inside the string. *)
Lemma str_slice_inside (s : string) (a size : Z) :
  (0 ≤ a < Z.of_nat (String.length s))%Z → (0 < size)%Z →
  str_slice s a (a + size)
  = string_of_list_ascii
      (take (Z.to_nat size) (drop (Z.to_nat a) (list_ascii_of_string s))).
Proof.
  intros Ha Hsize. unfold str_slice.
  destruct (Z.ltb_spec a 0); [lia|]. destruct (Z.ltb_spec (a + size) 0); [lia|].
  f_equal. rewrite (Z.min_l a) by lia.
  destruct (Z.le_gt_cases (a + size) (Z.of_nat (String.length s))).
  - rewrite (Z.min_l (a + size)) by lia. f_equal. lia.
  - rewrite (Z.min_r (a + size)) by lia.
    rewrite !take_ge; try done;
      rewrite length_drop, list_of_string_length; lia.
Qed.

Section ChunkerFacts.
Context (chunk_size chunk_overlap : Z).

(** The loop from a position [start], when each round moves forward. *)
Lemma split_loop_terminates (text : string) :
  (0 ≤ chunk_overlap < chunk_size)%Z →
  ∀ (n : nat) (start : Z),
    (0 ≤ start)%Z →
    (Z.of_nat (String.length text) - start ≤ Z.of_nat n)%Z →
    ∃ rest,
      (∀ fuel chunks,
         (n < fuel)%nat →
         RecursiveTextChunker.split_loop chunk_size chunk_overlap fuel text
           start chunks = Some (chunks ++ rest))
      ∧ Forall (λ c, (0 < String.length c)%nat
                     ∧ (Z.of_nat (String.length c) ≤ chunk_size)%Z) rest
      ∧ (∀ j c, rest !! j = Some c →
           c = str_slice text
                 (start + Z.of_nat j * (chunk_size - chunk_overlap))
                 (start + Z.of_nat j * (chunk_size - chunk_overlap)
                  + chunk_size))
      ∧ (chunk_overlap = 0%Z →
         concat_all rest
         = string_of_list_ascii
             (drop (Z.to_nat start) (list_ascii_of_string text))).
Proof.
  intros Hsizes. induction n as [|n IH]; intros start Hstart Hn;
    destruct (Z.ltb_spec start (Z.of_nat (String.length text))) as [Hlt|Hge];
    try lia.
  - exists []. split_and!; [|done|done|].
    + intros [|fuel] chunks Hfuel; [lia|].
      cbn [RecursiveTextChunker.split_loop].
      destruct (Z.ltb_spec start (Z.of_nat (String.length text))); [lia|].
      by rewrite app_nil_r.
    + intros _. rewrite drop_ge; [done|]. rewrite list_of_string_length. lia.
  - destruct (IH (start + chunk_size - chunk_overlap)%Z)
      as (rest & Hrun & Hall & Hpos & Hcat); [lia|lia|].
    exists (str_slice text start (start + chunk_size) :: rest). split_and!.
    + intros [|fuel] chunks Hfuel; [lia|].
      cbn [RecursiveTextChunker.split_loop].
      destruct (Z.ltb_spec start (Z.of_nat (String.length text))); [|lia].
      rewrite Hrun by lia. by rewrite <- app_assoc.
    + apply Forall_cons. split; [|done].
      rewrite str_slice_inside by lia.
      rewrite string_of_list_length, length_take, length_drop,
        list_of_string_length. lia.
    + intros [|j] c Hc; cbn in Hc.
      * injection Hc as <-. f_equal; lia.
      * rewrite (Hpos j c Hc). f_equal; lia.
    + intros Hzero. cbn [concat_all foldr]. fold (concat_all rest).
      rewrite Hcat by done. rewrite str_slice_inside by lia.
      rewrite <- string_of_list_app. f_equal.
      replace (Z.to_nat (start + chunk_size - chunk_overlap))
        with (Z.to_nat start + Z.to_nat chunk_size)%nat by lia.
      rewrite <- drop_drop. apply take_drop.
  - exists []. split_and!; [|done|done|].
    + intros [|fuel] chunks Hfuel; [lia|].
      cbn [RecursiveTextChunker.split_loop].
      destruct (Z.ltb_spec start (Z.of_nat (String.length text))); [lia|].
      by rewrite app_nil_r.
    + intros _. rewrite drop_ge; [done|]. rewrite list_of_string_length. lia.
Qed.

(** X19. With [0 <= chunk_overlap < chunk_size] the size-based split
    terminates: more than [len(text)] rounds are never needed, and the result
    does not depend on the fuel.  Every chunk is non-empty and at most
    [chunk_size] long; chunk [j] is the slice of [chunk_size] characters that
    starts at [j * (chunk_size - chunk_overlap)], so consecutive chunks share
    [chunk_overlap] characters; and without overlap the chunks put end to end
    give back the text. *)
Theorem split_by_size_terminates (text : string) :
  (0 ≤ chunk_overlap < chunk_size)%Z →
  ∃ chunks,
    (∀ fuel, (String.length text < fuel)%nat →
       RecursiveTextChunker._split_by_size chunk_size chunk_overlap fuel text
       = Some chunks)
    ∧ Forall (λ c, (0 < String.length c)%nat
                   ∧ (Z.of_nat (String.length c) ≤ chunk_size)%Z) chunks
    ∧ (∀ j c, chunks !! j = Some c →
         c = str_slice text
               (Z.of_nat j * (chunk_size - chunk_overlap))
               (Z.of_nat j * (chunk_size - chunk_overlap) + chunk_size))
    ∧ (chunk_overlap = 0%Z → concat_all chunks = text).
Proof.
  intros Hsizes.
  destruct (split_loop_terminates text Hsizes (String.length text) 0)
    as (chunks & Hrun & Hall & Hpos & Hcat); [lia|lia|].
  exists chunks. split_and!; try done.
  - intros fuel Hfuel. unfold RecursiveTextChunker._split_by_size.
    by rewrite Hrun.
  - intros Hzero. rewrite Hcat by done. cbn [Z.to_nat drop].
    apply string_of_list_ascii_of_string.
Qed.

(** X20. With [chunk_size <= chunk_overlap] the size-based split of a
    non-empty text never returns: the start position does not move forward,
    so the loop condition holds in every round, whatever the fuel. *)
Theorem split_by_size_diverges (text : string) :
  (chunk_size ≤ chunk_overlap)%Z →
  text ≠ "" →
  ∀ fuel,
    RecursiveTextChunker._split_by_size chunk_size chunk_overlap fuel text
    = None.
Proof.
  intros Hsizes Htext fuel. unfold RecursiveTextChunker._split_by_size.
  assert (0 < String.length text)%nat as Hlen by (destruct text; [done|cbn; lia]).
  assert (∀ start chunks,
            (start ≤ 0)%Z →
            RecursiveTextChunker.split_loop chunk_size chunk_overlap fuel text
              start chunks = None) as Hloop; [|by apply Hloop].
  induction fuel as [|fuel IH]; intros start chunks Hstart; [done|].
  cbn [RecursiveTextChunker.split_loop].
  destruct (Z.ltb_spec start (Z.of_nat (String.length text))); [|lia].
  apply IH. lia.
Qed.

End ChunkerFacts.

Lemma split_by_size_terminates_witness :
  ∃ chunks,
    RecursiveTextChunker._split_by_size 4 1 9 "abcdefgh" = Some chunks
    ∧ Forall (λ c, (0 < String.length c)%nat
                   ∧ (Z.of_nat (String.length c) ≤ 4)%Z) chunks.
Proof.
  destruct (split_by_size_terminates 4 1 "abcdefgh")
    as (chunks & Hrun & Hall & _); [lia|].
  exists chunks. split; [|exact Hall]. apply Hrun. cbn. lia.
Defined.

Lemma split_by_size_diverges_witness :
  RecursiveTextChunker._split_by_size 2 2 1000 "ab" = None.
Proof. apply split_by_size_diverges; [lia|done]. Defined.

(** ** From generation to the returned MCQs *)


Lemma NoDup_fmap_elem_inj {A B} (f : A → B) (l : list A) (x y : A) :
  NoDup (f <$> l) → x ∈ l → y ∈ l → f x = f y → x = y.
Proof.
  intros Hnodup Hx Hy Hf.
  apply list_elem_of_lookup in Hx as [i Hi].
  apply list_elem_of_lookup in Hy as [j Hj].
  assert (i = j) as ->; [|congruence].
  apply (NoDup_lookup (f <$> l) i j (f x)); [done| |].
  - by rewrite list_lookup_fmap, Hi.
  - by rewrite list_lookup_fmap, Hj, Hf.
Qed.

Section Gate.
Context {World : Type} (svc : Services World).


End Gate.


(** X22. Generation and critique meet on the same fragment when the
    [chunk_id]s of the context are pairwise different: the source fragment
    the critique stage looks up for a built MCQ is the fragment the MCQ was
    built from, the one that gave it its [chunk_id], source filename and
    snippet. *)
Theorem critique_uses_source_fragment (chunks : list Chunk) (i : nat)
    (d : McqData) (mcq : MCQ) :
  MCQGenerationAgent.build_mcq chunks i d = Ok mcq →
  NoDup (ch_chunk_id <$> chunks) →
  ∃ c,
    MCQCriticAgent.find_source_chunk chunks mcq = Some c
    ∧ c ∈ chunks
    ∧ chunk_id mcq = ch_chunk_id c
    ∧ source_filename mcq = ch_source c
    ∧ context_snippet mcq = String.app (str_take 200 (ch_text c)) "...".
Proof.
  intros Hbuild Hnodup.
  apply build_mcq_inv in Hbuild
    as (source & opts & Hsource & _ & _ & _ & _ & _ & Hid & Hfile & Hsnip & _).
  assert (source ∈ chunks) as Hin.
  { destruct (default 0%Z (md_chunk_index d) <? Z.of_nat (length chunks))%Z;
      apply list_getitem_inv in Hsource as [_ Hsource];
      by eapply list_elem_of_lookup_2. }
  exists source. split_and!; try done.
  unfold MCQCriticAgent.find_source_chunk.
  destruct (find (λ chunk, String.eqb (ch_chunk_id chunk) (chunk_id mcq)) chunks)
    as [c|] eqn:Hfind.
  - apply find_some in Hfind as [Hc Hmatch].
    apply list_elem_of_In in Hc. apply String.eqb_eq in Hmatch.
    f_equal. apply (NoDup_fmap_elem_inj ch_chunk_id chunks); try done.
    congruence.
  - apply list_elem_of_In in Hin.
    pose proof (find_none _ _ Hfind source Hin) as Hno. cbn in Hno.
    apply String.eqb_neq in Hno. by rewrite Hid in Hno.
Qed.

Lemma critique_uses_source_fragment_witness :
  ∃ mcq c,
    MCQGenerationAgent.build_mcq sample_chunks 0 (sample_item (Some 1%Z))
    = Ok mcq
    ∧ MCQCriticAgent.find_source_chunk sample_chunks mcq = Some c
    ∧ chunk_id mcq = ch_chunk_id c.
Proof.
  eexists.
  destruct (critique_uses_source_fragment sample_chunks 0
              (sample_item (Some 1%Z)) _ eq_refl)
    as (c & Hc & _ & Hid & _).
  { cbn. apply NoDup_cons. split; [|apply NoDup_singleton].
    intros Hin. by apply list_elem_of_singleton in Hin. }
  exists c. by split_and!.
Defined.
